(** * Verification of the LCR-6300 sweep-file reader of [analysis.py]

    A shallow embedding of [read_lcr_csv_lcr6300] and of the batch loop that
    fills [loaded], followed by the theorems that settle the claims made
    about them.

    Conventions of the embedding.
    - Text is a [string]; a character is a code point below 256.  On that
      range [py_isspace] and [py_isdigit] are Python's [str.isspace] and
      [str.isdigit].
    - Python integers are [Z]; [//] is [Z.div] (both round to the floor),
      negative slice bounds and negative indices count from the end.
    - A Python [float] is modelled by the number it denotes: an exact
      rational, an infinity or a NaN.  Rounding to binary64, overflow and
      the sign of zero are not modelled.
    - An exception is a record of its class and of [str(e)]; a function that
      can raise returns a [result]. *)

From Stdlib Require Import List String Ascii ZArith QArith Qreduction Lia Bool Arith.
From Stdlib Require Import DecimalString Permutation.
Import ListNotations.

Local Close Scope Q_scope.
Local Open Scope string_scope.
Local Open Scope list_scope.
Local Open Scope nat_scope.

(** ** Exceptions and results *)

Inductive exc_class : Type :=
| FileNotFoundError
| ValueError
| ZeroDivisionError
| IndexError.

Record exn : Type := Raise { exc : exc_class; msg : string }.

Inductive result (A : Type) : Type :=
| Ok (a : A)
| Err (e : exn).

Arguments Ok {A} a.
Arguments Err {A} e.

Definition bind {A B : Type} (r : result A) (k : A -> result B) : result B :=
  match r with
  | Ok a => k a
  | Err e => Err e
  end.

Notation "x <- r ;; k" := (bind r (fun x => k))
  (at level 61, r at next level, right associativity).

Definition exc_class_eqb (a b : exc_class) : bool :=
  match a, b with
  | FileNotFoundError, FileNotFoundError => true
  | ValueError, ValueError => true
  | ZeroDivisionError, ZeroDivisionError => true
  | IndexError, IndexError => true
  | _, _ => false
  end.

(** ** Python strings *)

Module PyStr.

(** [str.isspace] on one character, for code points below 256. *)
Definition py_isspace (c : ascii) : bool :=
  let n := nat_of_ascii c in
  ((9 <=? n) && (n <=? 13)) || ((28 <=? n) && (n <=? 32))
  || (n =? 133) || (n =? 160).

(** The ASCII decimal digits. *)
Definition is_dec_digit (c : ascii) : bool :=
  let n := nat_of_ascii c in (48 <=? n) && (n <=? 57).

(** [str.isdigit] on one character, for code points below 256: the decimal
    digits and the superscripts two, three and one. *)
Definition py_isdigit (c : ascii) : bool :=
  let n := nat_of_ascii c in
  is_dec_digit c || (n =? 178) || (n =? 179) || (n =? 185).

Fixpoint lstrip_by (p : ascii -> bool) (s : string) : string :=
  match s with
  | EmptyString => EmptyString
  | String c s' => if p c then lstrip_by p s' else s
  end.

Fixpoint rstrip_by (p : ascii -> bool) (s : string) : string :=
  match s with
  | EmptyString => EmptyString
  | String c s' =>
      match rstrip_by p s' with
      | EmptyString => if p c then EmptyString else String c EmptyString
      | r => String c r
      end
  end.

(** [s.strip()] *)
Definition strip (s : string) : string :=
  rstrip_by py_isspace (lstrip_by py_isspace s).

(** [s.strip(ch)] for a one-character argument. *)
Definition strip_char (ch : ascii) (s : string) : string :=
  rstrip_by (Ascii.eqb ch) (lstrip_by (Ascii.eqb ch) s).

(** [s.rstrip(ch)] for a one-character argument. *)
Definition rstrip_char (ch : ascii) (s : string) : string :=
  rstrip_by (Ascii.eqb ch) s.

(** [s.split(sep)] for a one-character separator: one more field than there
    are separators, and one empty field for the empty string. *)
Fixpoint split (sep : ascii) (s : string) : list string :=
  match s with
  | EmptyString => [EmptyString]
  | String c s' =>
      if Ascii.eqb c sep then EmptyString :: split sep s'
      else match split sep s' with
           | h :: t => String c h :: t
           | [] => [String c EmptyString]
           end
  end.

(** [s.replace(ch, '')] for a one-character [ch]. *)
Fixpoint remove_char (ch : ascii) (s : string) : string :=
  match s with
  | EmptyString => EmptyString
  | String c s' =>
      if Ascii.eqb c ch then remove_char ch s' else String c (remove_char ch s')
  end.

(** [s.startswith(p)] *)
Fixpoint startswith (p s : string) : bool :=
  match p, s with
  | EmptyString, _ => true
  | String _ _, EmptyString => false
  | String a p', String b s' => Ascii.eqb a b && startswith p' s'
  end.

(** [needle in hay]: the needle starts at some position of the haystack. *)
Fixpoint contains (needle hay : string) : bool :=
  startswith needle hay ||
  match hay with
  | EmptyString => false
  | String _ hay' => contains needle hay'
  end.

(** [str(n)] for an integer. *)
Definition str_of_Z (n : Z) : string := NilZero.string_of_int (Z.to_int n).

(** [sep.join(items)] for the one use made of it, [print] with several
    arguments. *)
Definition join_space (items : list string) : string :=
  String.concat " " items.

End PyStr.

(** ** Python lists *)

Module PyList.

Section Ops.
Context {A : Type}.

(** [l[:n]]: a negative bound counts from the end, and the bound is clipped
    to the list. *)
Definition slice_to (n : Z) (l : list A) : list A :=
  if (0 <=? n)%Z then firstn (Z.to_nat n) l
  else firstn (Z.to_nat (Z.of_nat (List.length l) + n)) l.

(** [l[n:]] for [n >= 0]. *)
Definition slice_from (n : nat) (l : list A) : list A := skipn n l.

(** [l[i]]: a negative index counts from the end; out of range raises. *)
Definition index (l : list A) (i : Z) : result A :=
  let j := if (i <? 0)%Z then (Z.of_nat (List.length l) + i)%Z else i in
  if (j <? 0)%Z then Err (Raise IndexError "list index out of range")
  else match nth_error l (Z.to_nat j) with
       | Some a => Ok a
       | None => Err (Raise IndexError "list index out of range")
       end.

(** [l.index(x)]: the first position holding [x]. *)
Fixpoint index_of (eqb : A -> A -> bool) (x : A) (l : list A) : option nat :=
  match l with
  | [] => None
  | y :: l' =>
      if eqb x y then Some 0%nat
      else option_map S (index_of eqb x l')
  end.

(** [x in l] *)
Definition mem (eqb : A -> A -> bool) (x : A) (l : list A) : bool :=
  existsb (eqb x) l.

End Ops.

End PyList.

(** ** Python floats *)

Module PyFloat.

(** The number a [float] denotes. *)
Inductive pyfloat : Type :=
| Finite (q : Q)
| Inf (neg : bool)
| NaN.

Definition q_is_zero (q : Q) : bool := (Qnum q =? 0)%Z.
Definition q_is_neg (q : Q) : bool := (Qnum q <? 0)%Z.

(** [a + b] *)
Definition padd (a b : pyfloat) : pyfloat :=
  match a, b with
  | NaN, _ | _, NaN => NaN
  | Finite x, Finite y => Finite (Qred (x + y))
  | Inf s, Finite _ | Finite _, Inf s => Inf s
  | Inf s, Inf t => if Bool.eqb s t then Inf s else NaN
  end.

(** [a * b] *)
Definition pmul (a b : pyfloat) : pyfloat :=
  match a, b with
  | NaN, _ | _, NaN => NaN
  | Finite x, Finite y => Finite (Qred (x * y))
  | Inf s, Finite y | Finite y, Inf s =>
      if q_is_zero y then NaN else Inf (xorb s (q_is_neg y))
  | Inf s, Inf t => Inf (xorb s t)
  end.

(** [a / n] for an element count [n >= 0], as [numpy.true_divide] does. *)
Definition pdiv_count (a : pyfloat) (n : nat) : pyfloat :=
  match a with
  | NaN => NaN
  | Inf s => Inf s
  | Finite x =>
      match n with
      | O => if q_is_zero x then NaN else Inf (q_is_neg x)
      | S _ => Finite (Qred (x / inject_Z (Z.of_nat n)))
      end
  end.

(** The float of a Python integer. *)
Definition of_Z (z : Z) : pyfloat := Finite (inject_Z z).

(** *** [float(s)] for a [str] argument

    The steps are CPython's: underscores are checked and removed, ASCII
    white space is stripped on both sides, and what is left must be, as a
    whole, an optional sign followed by a decimal number with an optional
    exponent, or by [inf], [infinity] or [nan] in any case. *)

(** White space for [float]: the C locale's, and the non-ASCII spaces, which
    CPython first rewrites to a blank. *)
Definition float_isspace (c : ascii) : bool :=
  let n := nat_of_ascii c in
  ((9 <=? n) && (n <=? 13)) || (n =? 32) || (n =? 133) || (n =? 160).

Definition is_underscore (c : ascii) : bool := Ascii.eqb c "_"%char.

(** The loop of [_Py_string_to_number_with_underscores]: an underscore must
    stand between two digits. *)
Fixpoint drop_underscores (prev : ascii) (s : string) : option string :=
  match s with
  | EmptyString => if is_underscore prev then None else Some EmptyString
  | String c s' =>
      if is_underscore c then
        if PyStr.is_dec_digit prev then drop_underscores c s' else None
      else if is_underscore prev && negb (PyStr.is_dec_digit c) then None
      else option_map (String c) (drop_underscores c s')
  end.

Definition without_underscores (s : string) : option string :=
  if PyStr.contains "_" s then drop_underscores zero s else Some s.

(** The longest prefix of decimal digits, and the rest. *)
Fixpoint span_digits (s : string) : string * string :=
  match s with
  | EmptyString => (EmptyString, EmptyString)
  | String c s' =>
      if PyStr.is_dec_digit c then
        let (d, r) := span_digits s' in (String c d, r)
      else (EmptyString, s)
  end.

Definition digit_value (c : ascii) : Z := Z.of_nat (nat_of_ascii c - 48).

Fixpoint digits_value (acc : Z) (s : string) : Z :=
  match s with
  | EmptyString => acc
  | String c s' => digits_value (10 * acc + digit_value c)%Z s'
  end.

(** The rational [m * 10^e], in lowest terms. *)
Definition scale10 (m e : Z) : Q :=
  if (0 <=? e)%Z then inject_Z (m * 10 ^ e)
  else Qred (Qmake m (Z.to_pos (10 ^ (- e)))).

Definition is_sign (c : ascii) : bool :=
  Ascii.eqb c "+"%char || Ascii.eqb c "-"%char.

(** An optional sign: whether it is a minus, and the rest. *)
Definition split_sign (s : string) : bool * string :=
  match s with
  | String c s' =>
      if Ascii.eqb c "-"%char then (true, s')
      else if Ascii.eqb c "+"%char then (false, s')
      else (false, s)
  | EmptyString => (false, s)
  end.

Definition is_e (c : ascii) : bool :=
  Ascii.eqb c "e"%char || Ascii.eqb c "E"%char.

(** The exponent part, which is empty or [e], an optional sign and at least
    one digit, up to the end of the string. *)
Definition parse_exponent (s : string) : option Z :=
  match s with
  | EmptyString => Some 0%Z
  | String c s' =>
      if is_e c then
        let (neg, r) := split_sign s' in
        let (d, rest) := span_digits r in
        match d, rest with
        | String _ _, EmptyString =>
            Some (if neg then (- digits_value 0 d)%Z else digits_value 0 d)
        | _, _ => None
        end
      else None
  end.

(** An unsigned decimal number: digits, an optional point and digits, with
    at least one digit, then the exponent part. *)
Definition parse_decimal (s : string) : option Q :=
  let (ip, r1) := span_digits s in
  let (fp, r2) :=
    match r1 with
    | String "."%char r => span_digits r
    | _ => (EmptyString, r1)
    end in
  match (ip ++ fp)%string with
  | EmptyString => None
  | String _ _ as ds =>
      match parse_exponent r2 with
      | Some e =>
          Some (scale10 (digits_value 0 ds) (e - Z.of_nat (String.length fp)))
      | None => None
      end
  end.

(** ASCII lower case. *)
Definition to_lower (c : ascii) : ascii :=
  let n := nat_of_ascii c in
  if (65 <=? n) && (n <=? 90) then ascii_of_nat (n + 32) else c.

Fixpoint lower (s : string) : string :=
  match s with
  | EmptyString => EmptyString
  | String c s' => String (to_lower c) (lower s')
  end.

(** [_Py_parse_inf_or_nan] after the sign. *)
Definition parse_inf_or_nan (neg : bool) (s : string) : option pyfloat :=
  let w := lower s in
  if String.eqb w "inf" || String.eqb w "infinity" then Some (Inf neg)
  else if String.eqb w "nan" then Some NaN
  else None.

Definition py_float (s : string) : option pyfloat :=
  match without_underscores s with
  | None => None
  | Some s1 =>
      let s2 := PyStr.rstrip_by float_isspace (PyStr.lstrip_by float_isspace s1) in
      let (neg, body) := split_sign s2 in
      match parse_decimal body with
      | Some q => Some (Finite (if neg then Qred (Qopp q) else q))
      | None => parse_inf_or_nan neg body
      end
  end.

End PyFloat.

Import PyFloat.

(** ** numpy arrays of floats, as far as the reader uses them *)

Module Np.

(** A two-dimensional array: its shape, and its rows in C order. *)
Record ndarray2 : Type := Array2 {
  nrows : nat;
  ncolumns : nat;
  rows : list (list pyfloat)
}.

(** [rows] lists of [c] consecutive elements each. *)
Fixpoint chunks (r c : nat) (l : list pyfloat) : list (list pyfloat) :=
  match r with
  | O => []
  | S r' => firstn c l :: chunks r' c (skipn c l)
  end.

Definition shape_text (r c : Z) : string :=
  ("(" ++ PyStr.str_of_Z r ++ ", " ++ PyStr.str_of_Z c ++ ")")%string.

Definition size_mismatch (size : nat) (r c : Z) : exn :=
  Raise ValueError
    ("cannot reshape array of size " ++ PyStr.str_of_Z (Z.of_nat size)
     ++ " into shape " ++ shape_text r c)%string.

(** The dimension numpy infers for a negative entry of the shape. *)
Definition infer_dim (size : nat) (known : Z) : option nat :=
  if (known =? 0)%Z then None
  else if (Z.of_nat size mod known =? 0)%Z
       then Some (Z.to_nat (Z.of_nat size / known))
       else None.

(** [np.array(l).reshape((r, c))] *)
Definition reshape (l : list pyfloat) (r c : Z) : result ndarray2 :=
  let size := List.length l in
  if (r <? 0)%Z && (c <? 0)%Z then
    Err (Raise ValueError "can only specify one unknown dimension")
  else if (r <? 0)%Z then
    match infer_dim size c with
    | Some r' => Ok (Array2 r' (Z.to_nat c) (chunks r' (Z.to_nat c) l))
    | None => Err (size_mismatch size r c)
    end
  else if (c <? 0)%Z then
    match infer_dim size r with
    | Some c' => Ok (Array2 (Z.to_nat r) c' (chunks (Z.to_nat r) c' l))
    | None => Err (size_mismatch size r c)
    end
  else if (r * c =? Z.of_nat size)%Z then
    Ok (Array2 (Z.to_nat r) (Z.to_nat c) (chunks (Z.to_nat r) (Z.to_nat c) l))
  else Err (size_mismatch size r c).

(** Column [j] of the rows. *)
Definition column (j : nat) (m : list (list pyfloat)) : list pyfloat :=
  map (fun row => nth j row NaN) m.

(** [a.T] *)
Definition transpose (a : ndarray2) : ndarray2 :=
  Array2 (ncolumns a) (nrows a)
         (map (fun j => column j (rows a)) (seq 0 (ncolumns a))).

(** [np.add.reduce] over one row. *)
Definition sum (l : list pyfloat) : pyfloat := fold_left padd l (Finite 0).

(** The mean of one row: its sum divided by its length. *)
Definition mean (l : list pyfloat) : pyfloat :=
  pdiv_count (sum l) (List.length l).

(** [a.mean(axis=1)] *)
Definition mean_axis1 (a : ndarray2) : list pyfloat := map mean (rows a).

(** [v * scale] for a one-dimensional array and a scalar. *)
Definition times (v : list pyfloat) (scale : pyfloat) : list pyfloat :=
  map (fun x => pmul x scale) v.

(** [np.arange(start, stop, step)] for integers and [step > 0]. *)
Definition arange (start stop step : Z) : list Z :=
  map (fun i => (start + Z.of_nat i * step)%Z)
      (seq 0 (Z.to_nat ((stop - start + step - 1) / step))).

End Np.

(** ** Files *)

Record Path : Type := MkPath {
  path_text : string;   (* str(path) *)
  name : string         (* path.name, the last component *)
}.

(** The files that exist, each with its decoded text. *)
Definition filesystem : Type := string -> option string.

Definition path_exists (fs : filesystem) (p : Path) : bool :=
  match fs (path_text p) with Some _ => true | None => false end.

Definition LF : ascii := ascii_of_nat 10.
Definition CR : ascii := ascii_of_nat 13.

(** Text mode with the default [newline=None]: a carriage return, alone or
    before a line feed, is read as a line feed. *)
Fixpoint universal_newlines (s : string) : string :=
  match s with
  | EmptyString => EmptyString
  | String c s' =>
      if Ascii.eqb c CR then
        match s' with
        | String d s'' =>
            if Ascii.eqb d LF then String LF (universal_newlines s'')
            else String LF (universal_newlines s')
        | EmptyString => String LF EmptyString
        end
      else String c (universal_newlines s')
  end.

(** Iterating over a text file: the lines, each with its line feed, the
    last one possibly without. *)
Fixpoint iter_lines (s : string) : list string :=
  match s with
  | EmptyString => []
  | String c s' =>
      if Ascii.eqb c LF then String c EmptyString :: iter_lines s'
      else match iter_lines s' with
           | [] => [String c EmptyString]
           | h :: t => String c h :: t
           end
  end.

(** [[ln.rstrip('\n') for ln in f]] *)
Definition read_lines (text : string) : list string :=
  map (PyStr.rstrip_char LF) (iter_lines (universal_newlines text)).

(** ** The reader [read_lcr_csv_lcr6300] *)

Module Reader.

(** The loop that looks for the header: the first of [lines[:40]] that
    contains [col_name]. *)
Fixpoint find_header_from (col_name : string) (i : nat) (ls : list string)
  : option nat :=
  match ls with
  | [] => None
  | ln :: rest =>
      if PyStr.contains col_name ln then Some i
      else find_header_from col_name (S i) rest
  end.

Definition find_header (col_name : string) (lines : list string) : option nat :=
  find_header_from col_name 0 (PyList.slice_to 40 lines).

(** The test of the loop after a header: not blank, and the first character
    of the stripped line is a plus, a digit or a minus. *)
Definition accepted_after_header (ln : string) : bool :=
  match PyStr.strip ln with
  | EmptyString => false
  | String first _ =>
      Ascii.eqb first "+"%char || PyStr.py_isdigit first
      || Ascii.eqb first "-"%char
  end.

(** The test of the loop without a header. *)
Definition accepted_without_header (ln : string) : bool :=
  PyStr.startswith "+" (PyStr.strip ln).

(** One turn of either loop: [data_lines.append(ln)] when the test holds. *)
Definition collect_step (test : string -> bool) (data_lines : list string)
  (ln : string) : list string :=
  if test ln then data_lines ++ [ln] else data_lines.

Definition collect_data_lines (header_idx : option nat) (lines : list string)
  : list string :=
  match header_idx with
  | Some h =>
      fold_left (collect_step accepted_after_header)
                (PyList.slice_from (h + 1) lines) []
  | None =>
      fold_left (collect_step accepted_without_header) lines []
  end.

(** The double quote character. *)
Definition DQUOTE : ascii := ascii_of_nat 34.

(** The fields of a line: it is split at every comma, and each piece is
    stripped of white space and then of double quotes, on both sides. *)
Definition fields (ln : string) : list string :=
  map (fun c => PyStr.strip_char DQUOTE (PyStr.strip c))
      (PyStr.split ","%char ln).

(** The column to read: the position of [col_name] among the fields of the
    header when it is one of them, [fallback_col_index] otherwise. *)
Definition choose_column (col_name : string) (fallback_col_index : Z)
  (header_idx : option nat) (lines : list string) : Z :=
  match header_idx with
  | Some h =>
      let cols := fields (nth h lines EmptyString) in
      if PyList.mem String.eqb col_name cols then
        match PyList.index_of String.eqb col_name cols with
        | Some i => Z.of_nat i
        | None => fallback_col_index
        end
      else fallback_col_index
  | None => fallback_col_index
  end.

(** The two attempts at [float(valstr)]. *)
Definition parse_value (valstr : string) : option pyfloat :=
  match py_float valstr with
  | Some v => Some v
  | None => py_float (PyStr.remove_char "+"%char valstr)
  end.

(** The body of the loop over the data lines: [None] is [continue], a value
    is appended, and [parts[col_index]] may raise. *)
Definition line_value (col_index : Z) (ln : string)
  : result (option pyfloat) :=
  let parts := fields ln in
  if (Z.of_nat (List.length parts) <=? col_index)%Z then Ok None
  else
    valstr <- PyList.index parts col_index ;;
    Ok (parse_value valstr).

Definition values_step (col_index : Z) (acc : result (list pyfloat))
  (ln : string) : result (list pyfloat) :=
  values <- acc ;;
  r <- line_value col_index ln ;;
  match r with
  | Some v => Ok (values ++ [v])
  | None => Ok values
  end.

Definition collect_values (col_index : Z) (data_lines : list string)
  : result (list pyfloat) :=
  fold_left (values_step col_index) data_lines (Ok []).

Definition no_data_lines (p : Path) : exn :=
  Raise ValueError ("No data lines found in " ++ name p)%string.

Definition no_numeric_values (p : Path) : exn :=
  Raise ValueError
    ("No numeric impedance values parsed in " ++ name p)%string.

Definition not_enough_rows (p : Path) (len : nat) (num_freq : Z) : exn :=
  Raise ValueError
    ("Not enough rows to reshape for " ++ name p
     ++ " (len=" ++ PyStr.str_of_Z (Z.of_nat len)
     ++ ", num_freq=" ++ PyStr.str_of_Z num_freq ++ ")")%string.

Definition division_by_zero : exn :=
  Raise ZeroDivisionError "integer division or modulo by zero".

(** [len(values) // num_freq] *)
Definition repeats (values : list pyfloat) (num_freq : Z) : result Z :=
  if (num_freq =? 0)%Z then Err division_by_zero
  else Ok (Z.of_nat (List.length values) / num_freq)%Z.

(** From the parsed values to the averages: the second half of the
    function, from [ncols = len(values) // num_freq] on. *)
Definition reshape_and_average (p : Path) (num_freq : Z)
  (trim_first_n : option Z) (scale : pyfloat) (values : list pyfloat)
  : result (list pyfloat) :=
  ncols <- repeats values num_freq ;;
  st <-
    (if (ncols =? 0)%Z then
       st1 <-
         match trim_first_n with
         | Some n =>
             let values' := PyList.slice_to n values in
             ncols' <- repeats values' num_freq ;;
             Ok (values', ncols')
         | None => Ok (values, ncols)
         end ;;
       if (snd st1 =? 0)%Z
       then Err (not_enough_rows p (List.length (fst st1)) num_freq)
       else Ok st1
     else Ok (values, ncols)) ;;
  let values := PyList.slice_to (snd st * num_freq) (fst st) in
  mat <- Np.reshape values (snd st) num_freq ;;
  Ok (Np.times (Np.mean_axis1 (Np.transpose mat)) scale).

(** From the lines of the file to the averages. *)
Definition parse_lines (p : Path) (num_freq : Z) (trim_first_n : option Z)
  (col_name : string) (fallback_col_index : Z) (scale : pyfloat)
  (lines : list string) : result (list pyfloat) :=
  let header_idx := find_header col_name lines in
  let data_lines := collect_data_lines header_idx lines in
  match data_lines with
  | [] => Err (no_data_lines p)
  | _ :: _ =>
      let col_index :=
        choose_column col_name fallback_col_index header_idx lines in
      values <- collect_values col_index data_lines ;;
      match values with
      | [] => Err (no_numeric_values p)
      | _ :: _ => reshape_and_average p num_freq trim_first_n scale values
      end
  end.

Definition read_lcr_csv_lcr6300 (fs : filesystem) (p : Path) (num_freq : Z)
  (trim_first_n : option Z) (col_name : string) (fallback_col_index : Z)
  (scale : pyfloat) : result (list pyfloat) :=
  match fs (path_text p) with
  | None => Err (Raise FileNotFoundError (path_text p))
  | Some text =>
      parse_lines p num_freq trim_first_n col_name fallback_col_index scale
                  (read_lines text)
  end.

End Reader.

Import Reader.

(** ** The batch loop that fills [loaded] *)

Module Batch.

(** A [dict] with string keys, in insertion order. *)
Definition dict (V : Type) : Type := list (string * V).

(** [d[k] = v]: an existing key keeps its place. *)
Fixpoint dict_set {V : Type} (k : string) (v : V) (d : dict V) : dict V :=
  match d with
  | [] => [(k, v)]
  | (k', v') :: d' =>
      if String.eqb k k' then (k, v) :: d'
      else (k', v') :: dict_set k v d'
  end.

Definition TO_LOAD : list string :=
  [ "LIST0423.CSV"; "LIST0424.CSV"; "LIST0009.CSV"; "LIST0022.CSV";
    "LIST0032.CSV"; "LIST0042.CSV"; "LIST0052.CSV"; "LIST0096.CSV" ].

(** [freq = np.arange(10, 101, 10)] *)
Definition freq : list Z := Np.arange 10 101 10.

(** [DATA_DIR / fn] for a plain file name. *)
Definition data_file (data_dir fn : string) : Path :=
  MkPath (data_dir ++ "/" ++ fn)%string fn.

(** What the loop has built so far: the dict and the lines printed. *)
Record state : Type := State {
  loaded : dict (list pyfloat);
  printed : list string
}.

Definition print (st : state) (items : list string) : state :=
  State (loaded st) (printed st ++ [PyStr.join_space items]).

(** One turn of [for fn in TO_LOAD]. *)
Definition load_step (fs : filesystem) (data_dir : string) (st : state)
  (fn : string) : state :=
  let p := data_file data_dir fn in
  if negb (path_exists fs p) then print st ["NOT FOUND (skipped):"; fn]
  else
    match read_lcr_csv_lcr6300 fs p 10 (Some 100%Z) "Z(OHM)" 2
                               (Finite (1 # 1000)) with
    | Ok avg => print (State (dict_set fn avg (loaded st)) (printed st))
                      ["Loaded:"; fn]
    | Err e => print st ["Error reading"; fn; ":"; msg e]
    end.

Definition load_loop (fs : filesystem) (data_dir : string)
  (to_load : list string) : state :=
  fold_left (load_step fs data_dir) to_load (State [] []).

(** [base = 20 + 0.3 * freq] *)
Definition base : list pyfloat :=
  map (fun f => padd (of_Z 20) (pmul (Finite (3 # 10)) (of_Z f))) freq.

Definition demo_data : dict (list pyfloat) :=
  [ ("demo_baseline", base);
    ("demo_postwash", Np.times base (Finite (5 # 4)));
    ("demo_hydrogel", Np.times base (Finite (9 # 10))) ].

Definition no_real_files : string :=
  String LF "No real files were loaded. The script will generate synthetic demo data instead.".

(** The loop, then the fallback [if not loaded]. *)
Definition load_all (fs : filesystem) (data_dir : string)
  (to_load : list string) : state :=
  let st := load_loop fs data_dir to_load in
  match loaded st with
  | [] => State demo_data (printed st ++ [no_real_files])
  | _ :: _ => st
  end.

End Batch.

Import Batch.

(** ** The rest of the script: tables, plots and normalisation *)

Module Script.

(** What stops the rest of the script: an exhausted iterator, a missing
    key, or an exception of the libraries. *)
Inductive failure : Type :=
| StopIteration
| KeyError (k : string)
| Raised (e : exn).

Inductive run (A : Type) : Type :=
| Done (a : A)
| Failed (f : failure).

Arguments Done {A} a.
Arguments Failed {A} f.

(** [d[k]] *)
Fixpoint dict_get {V : Type} (k : string) (d : dict V) : option V :=
  match d with
  | [] => None
  | (k', v) :: d' => if String.eqb k k' then Some v else dict_get k d'
  end.

(** [d.keys()] *)
Definition keys {V : Type} (d : dict V) : list string := map fst d.

(** [a / b] for floats held in numpy arrays: dividing by zero gives an
    infinity or a NaN, not an exception. *)
Definition pdiv (a b : pyfloat) : pyfloat :=
  match a, b with
  | NaN, _ | _, NaN => NaN
  | Finite x, Finite y =>
      if q_is_zero y then (if q_is_zero x then NaN else Inf (q_is_neg x))
      else Finite (Qred (x / y))
  | Finite _, Inf _ => Finite 0
  | Inf s, Finite y => Inf (xorb s (q_is_neg y))
  | Inf _, Inf _ => NaN
  end.

Definition broadcast_error (n m : nat) : exn :=
  Raise ValueError
    ("operands could not be broadcast together with shapes ("
     ++ PyStr.str_of_Z (Z.of_nat n) ++ ",) ("
     ++ PyStr.str_of_Z (Z.of_nat m) ++ ",) ")%string.

(** [v / w] for one-dimensional arrays: equal lengths, or one of them of
    length one, which is then repeated. *)
Definition divide (v w : list pyfloat) : result (list pyfloat) :=
  if List.length v =? List.length w then
    Ok (map (fun xy => pdiv (fst xy) (snd xy)) (combine v w))
  else
    match v, w with
    | [x], _ => Ok (map (fun y => pdiv x y) w)
    | _, [y] => Ok (map (fun x => pdiv x y) v)
    | _, _ => Err (broadcast_error (List.length v) (List.length w))
    end.

(** [pd.DataFrame({'frequency_hz': freq, 'impedance_kohm': vec})]: the rows
    of the table, when the two columns have the same length. *)
Definition data_frame (freq : list Z) (vec : list pyfloat)
  : result (list (Z * pyfloat)) :=
  if List.length freq =? List.length vec then Ok (combine freq vec)
  else Err (Raise ValueError "All arrays must be of the same length").

(** The loop that builds the processed tables, one per entry of [loaded],
    under the name of the entry. *)
Fixpoint processed_tables (loaded : dict (list pyfloat))
  : run (list (string * list (Z * pyfloat))) :=
  match loaded with
  | [] => Done []
  | (name, vec) :: rest =>
      match data_frame freq vec with
      | Err e => Failed (Raised e)
      | Ok out =>
          match processed_tables rest with
          | Done tables => Done ((name, out) :: tables)
          | Failed f => Failed f
          end
      end
  end.

(** [c.lower()] for a code point below 256: the ASCII capitals and the
    accented capitals of Latin-1. *)
Definition lower_char (c : ascii) : ascii :=
  let n := nat_of_ascii c in
  if ((65 <=? n) && (n <=? 90)) || ((192 <=? n) && (n <=? 214))
     || ((216 <=? n) && (n <=? 222))
  then ascii_of_nat (n + 32) else c.

(** [s.lower()] *)
Fixpoint str_lower (s : string) : string :=
  match s with
  | EmptyString => EmptyString
  | String c s' => String (lower_char c) (str_lower s')
  end.

(** One call of [plt.plot]: the format or marker, the label and the
    ordinates; the abscissae are always [freq]. *)
Record plot_call : Type := Plot {
  style : string;
  label : string;
  ydata : list pyfloat
}.

Definition shape_error (n : nat) : exn :=
  Raise ValueError
    ("x and y must have same first dimension, but have shapes ("
     ++ PyStr.str_of_Z (Z.of_nat (List.length freq)) ++ ",) and ("
     ++ PyStr.str_of_Z (Z.of_nat n) ++ ",)")%string.

(** [plt.plot(freq, y, ...)]: the two arrays must have the same length. *)
Definition plot (style label : string) (y : list pyfloat)
  : result plot_call :=
  if List.length freq =? List.length y then Ok (Plot style label y)
  else Err (shape_error (List.length y)).

(** ['hydro' in k.lower()] *)
Definition is_hydro (k : string) : bool :=
  PyStr.contains "hydro" (str_lower k).

(** [plotted.add(k)] on a set held as a list. *)
Definition set_add (k : string) (s : list string) : list string :=
  if PyList.mem String.eqb k s then s else s ++ [k].

(** First loop of the first figure: the entries whose name has [hydro]. *)
Definition hydro_step (st : run (list plot_call * list string))
  (kv : string * list pyfloat) : run (list plot_call * list string) :=
  match st with
  | Failed f => Failed f
  | Done (calls, plotted) =>
      if is_hydro (fst kv) then
        match plot "-o" (fst kv) (snd kv) with
        | Ok call => Done (calls ++ [call], set_add (fst kv) plotted)
        | Err e => Failed (Raised e)
        end
      else st
  end.

(** Second loop of the first figure: the entries not plotted yet. *)
Definition other_step (plotted : list string) (st : run (list plot_call))
  (kv : string * list pyfloat) : run (list plot_call) :=
  match st with
  | Failed f => Failed f
  | Done calls =>
      if PyList.mem String.eqb (fst kv) plotted then st
      else
        match plot "-s" (fst kv) (snd kv) with
        | Ok call => Done (calls ++ [call])
        | Err e => Failed (Raised e)
        end
  end.

(** The calls of [plt.plot] for the first figure, in order. *)
Definition first_figure (loaded : dict (list pyfloat))
  : run (list plot_call) :=
  match fold_left hydro_step loaded (Done ([], [])) with
  | Failed f => Failed f
  | Done (calls, plotted) => fold_left (other_step plotted) loaded (Done calls)
  end.

(** [next(iter(loaded.keys()))] *)
Definition first_key {V : Type} (d : dict V) : run string :=
  match d with
  | [] => Failed StopIteration
  | (k, _) :: _ => Done k
  end.

(** The loop of the second figure: every entry divided by the baseline. *)
Fixpoint normalised_calls (baseline : list pyfloat)
  (items : dict (list pyfloat)) : run (list plot_call) :=
  match items with
  | [] => Done []
  | (k, v) :: rest =>
      match divide v baseline with
      | Err e => Failed (Raised e)
      | Ok y =>
          match plot "o" k y with
          | Err e => Failed (Raised e)
          | Ok call =>
              match normalised_calls baseline rest with
              | Done calls => Done (call :: calls)
              | Failed f => Failed f
              end
          end
      end
  end.

(** The calls of [plt.plot] for the second figure, in order. *)
Definition second_figure (loaded : dict (list pyfloat))
  : run (list plot_call) :=
  match first_key loaded with
  | Failed f => Failed f
  | Done baseline_key =>
      match dict_get baseline_key loaded with
      | None => Failed (KeyError baseline_key)
      | Some baseline => normalised_calls baseline loaded
      end
  end.

End Script.

Import Script.

(** * The claims in terms of the model *)

(** A needle occurs in a haystack when the haystack is some text, the
    needle, and some more text. *)
Definition is_substring (needle hay : string) : Prop :=
  exists a b, hay = (a ++ needle ++ b)%string.

(** The first character of a line that is not white space, if any. *)
Fixpoint first_non_whitespace (s : string) : option ascii :=
  match s with
  | EmptyString => None
  | String c s' => if PyStr.py_isspace c then first_non_whitespace s' else Some c
  end.

(** A line qualifies after a header when it is not blank and its first
    character that is not white space is a plus, a digit or a minus. *)
Definition candidate_after_header (ln : string) : bool :=
  match first_non_whitespace ln with
  | Some c => Ascii.eqb c "+"%char || PyStr.py_isdigit c || Ascii.eqb c "-"%char
  | None => false
  end.

(** A line qualifies without a header when it starts with a plus once the
    leading white space is gone. *)
Definition candidate_without_header (ln : string) : bool :=
  match first_non_whitespace ln with
  | Some c => Ascii.eqb c "+"%char
  | None => false
  end.

(** Position [i] is the first one of [l] that holds [x]. *)
Definition first_position {A : Type} (x : A) (l : list A) (i : nat) : Prop :=
  nth_error l i = Some x /\ forall j, j < i -> nth_error l j <> Some x.

(** The values read from the lines of a file: the chosen column of the
    candidate data lines. *)
Definition extracted_values (col_name : string) (fallback_col_index : Z)
  (lines : list string) : result (list pyfloat) :=
  let header_idx := find_header col_name lines in
  collect_values (choose_column col_name fallback_col_index header_idx lines)
                 (collect_data_lines header_idx lines).

(** What is left of the values when the first count of blocks is zero. *)
Definition trimmed (trim_first_n : option Z) (values : list pyfloat)
  : list pyfloat :=
  match trim_first_n with
  | Some n => PyList.slice_to n values
  | None => values
  end.

(** The values that are averaged when there is at least one block: the
    first [r * c] of them, as [r] rows of [c], averaged by column. *)
Definition block_means (r c : nat) (scale : pyfloat) (values : list pyfloat)
  : list pyfloat :=
  Np.times
    (map Np.mean
         (map (fun j => Np.column j (Np.chunks r c (firstn (r * c) values)))
              (seq 0 c)))
    scale.

Definition index_out_of_range : exn :=
  Raise IndexError "list index out of range".

(** What one configured name contributes: the averages of its file when the
    file exists and the reader returns, nothing otherwise. *)
Definition outcome (fs : filesystem) (data_dir fn : string)
  : option (list pyfloat) :=
  if path_exists fs (data_file data_dir fn) then
    match read_lcr_csv_lcr6300 fs (data_file data_dir fn) 10 (Some 100%Z)
                               "Z(OHM)" 2 (Finite (1 # 1000)) with
    | Ok avg => Some avg
    | Err _ => None
    end
  else None.

Definition keep (fs : filesystem) (data_dir : string)
  (d : dict (list pyfloat)) (fn : string) : dict (list pyfloat) :=
  match outcome fs data_dir fn with
  | Some avg => dict_set fn avg d
  | None => d
  end.

(** The placeholder set in the words of the specification: a baseline of
    [20 + 0.3 * f] over the ten frequencies, and that baseline times 1.25
    and times 0.9. *)
Definition frequency_axis : list Z := [10; 20; 30; 40; 50; 60; 70; 80; 90; 100]%Z.

Definition placeholder_baseline : list pyfloat :=
  map (fun f => padd (of_Z 20) (pmul (Finite 0.3%Q) (of_Z f))) frequency_axis.

Definition placeholder : dict (list pyfloat) :=
  [ ("demo_baseline", placeholder_baseline);
    ("demo_postwash", map (fun x => pmul x (Finite 1.25%Q)) placeholder_baseline);
    ("demo_hydrogel", map (fun x => pmul x (Finite 0.9%Q)) placeholder_baseline) ].

(** ** Sample files *)

Module Sample.

Definition line (s : string) : string := (s ++ String LF EmptyString)%string.

Definition quoted (s : string) : string :=
  String DQUOTE (s ++ String DQUOTE EmptyString)%string.

(** A header naming the column, two sweeps of two frequencies, with a blank
    line, a quoted value, a line of text and a short row in between. *)
Definition text : string :=
  (line "LCR-6300 LIST"
   ++ line ("F(HZ)," ++ quoted "Z(OHM)" ++ ", R")
   ++ line "+1.0E+01,+3.15453E+04,+1"
   ++ line ""
   ++ line ("+2.0E+01," ++ quoted "+1.0E+03" ++ ",+1")
   ++ line "x,1,2"
   ++ line "+1.0E+01,+1.0E+04,+1"
   ++ line "+2.0E+01"
   ++ "+2.0E+01,3.0E+03,+1")%string.

(** The impedance column comes first: short rows still carry a value. *)
Definition text_first_column : string :=
  (line "Z(OHM),F(HZ)"
   ++ line "+5.0E+03"
   ++ "+7.0E+03,+2.0E+01")%string.

(** No line that could be a data line. *)
Definition text_no_data : string :=
  (line "Z(OHM),F(HZ)" ++ line "no readings")%string.

(** Data lines without a number in the column. *)
Definition text_no_numbers : string :=
  (line "F(HZ),Z(OHM)" ++ line "+1.0E+01,over" ++ "+2.0E+01")%string.

Definition files : filesystem := fun k =>
  if String.eqb k "data/LIST0001.CSV" then Some text
  else if String.eqb k "data/LIST0002.CSV" then Some text_first_column
  else if String.eqb k "data/LIST0003.CSV" then Some text_no_data
  else if String.eqb k "data/LIST0004.CSV" then Some text_no_numbers
  else None.

Definition path1 : Path := MkPath "data/LIST0001.CSV" "LIST0001.CSV".
Definition path2 : Path := MkPath "data/LIST0002.CSV" "LIST0002.CSV".
Definition path3 : Path := MkPath "data/LIST0003.CSV" "LIST0003.CSV".
Definition path4 : Path := MkPath "data/LIST0004.CSV" "LIST0004.CSV".
Definition missing : Path := MkPath "data/LIST9999.CSV" "LIST9999.CSV".

Definition kilo : pyfloat := Finite (1 # 1000).

Definition values1 : list pyfloat :=
  [Finite (315453 # 10); Finite 1000; Finite 10000; Finite 3000].

End Sample.

(** * Further notions used by the properties *)

(** The number of occurrences of a character. *)
Fixpoint count_char (ch : ascii) (s : string) : nat :=
  match s with
  | EmptyString => 0
  | String c s' =>
      (if Ascii.eqb c ch then 1 else 0) + count_char ch s'
  end.

(** Every character of the string passes the test. *)
Fixpoint string_forall (test : ascii -> bool) (s : string) : bool :=
  match s with
  | EmptyString => true
  | String c s' => test c && string_forall test s'
  end.

(** A string of decimal digits only. *)
Definition all_digits (s : string) : bool :=
  string_forall PyStr.is_dec_digit s.

(** A float whose rational, if it has one, is in lowest terms, as every
    float made by [py_float] and by the arithmetic is. *)
Definition canonical (x : pyfloat) : Prop :=
  match x with
  | Finite q => Qred q = q
  | _ => True
  end.

(** The line the loop prints for one configured name. *)
Definition status_line (fs : filesystem) (data_dir fn : string) : string :=
  if path_exists fs (data_file data_dir fn) then
    match read_lcr_csv_lcr6300 fs (data_file data_dir fn) 10 (Some 100%Z)
                               "Z(OHM)" 2 (Finite (1 # 1000)) with
    | Ok _ => ("Loaded: " ++ fn)%string
    | Err e => ("Error reading " ++ fn ++ " : " ++ msg e)%string
    end
  else ("NOT FOUND (skipped): " ++ fn)%string.

(** The entry a configured name adds to [loaded], if any. *)
Definition entry (fs : filesystem) (data_dir fn : string)
  : list (string * list pyfloat) :=
  match outcome fs data_dir fn with
  | Some avg => [(fn, avg)]
  | None => []
  end.

(** A float that is a number other than zero. *)
Definition finite_nonzero (x : pyfloat) : Prop :=
  match x with
  | Finite q => q_is_zero q = false
  | _ => False
  end.

(** The table of one entry: the frequencies beside the values. *)
Definition table_of (kv : string * list pyfloat)
  : string * list (Z * pyfloat) :=
  (fst kv, combine freq (snd kv)).

(** The two kinds of call of the first figure. *)
Definition hydro_call (kv : string * list pyfloat) : plot_call :=
  Plot "-o" (fst kv) (snd kv).

Definition other_call (kv : string * list pyfloat) : plot_call :=
  Plot "-s" (fst kv) (snd kv).

(** The call of the second figure for one entry and a baseline of the same
    length. *)
Definition normalised_call (baseline : list pyfloat)
  (kv : string * list pyfloat) : plot_call :=
  Plot "o" (fst kv)
       (map (fun xy => pdiv (fst xy) (snd xy)) (combine (snd kv) baseline)).

(** * The model on small inputs *)

Example read_lines_sample :
  read_lines Sample.text_first_column
  = ["Z(OHM),F(HZ)"; "+5.0E+03"; "+7.0E+03,+2.0E+01"].
Proof. reflexivity. Qed.

Example read_lines_newlines :
  read_lines ("a" ++ String CR (String LF ("b" ++ String CR ("c" ++ String LF ""))))
  = ["a"; "b"; "c"].
Proof. reflexivity. Qed.

Example fields_sample :
  fields ("  +1.0 , " ++ Sample.quoted "+2.0" ++ " ,x,") = ["+1.0"; "+2.0"; "x"; ""].
Proof. reflexivity. Qed.

Example py_float_plain : py_float "12.5" = Some (Finite (25 # 2)).
Proof. vm_compute. reflexivity. Qed.

Example py_float_exponent : py_float "-1.5e-3" = Some (Finite (- 3 # 2000)).
Proof. vm_compute. reflexivity. Qed.

Example py_float_underscore : py_float " 1_000 " = Some (Finite 1000).
Proof. vm_compute. reflexivity. Qed.

Example py_float_inf : py_float "-Infinity" = Some (Inf true).
Proof. vm_compute. reflexivity. Qed.

Example py_float_rejects :
  map py_float [""; "+"; "."; "1e"; "1_"; "0x10"; "++3"; "1,5"; "over"]
  = [None; None; None; None; None; None; None; None; None].
Proof. vm_compute. reflexivity. Qed.

Example parse_value_retry : parse_value "++3" = Some (Finite 3).
Proof. vm_compute. reflexivity. Qed.

Example read_sample :
  read_lcr_csv_lcr6300 Sample.files Sample.path1 2 None "Z(OHM)" 2 Sample.kilo
  = Ok [Finite (415453 # 20000); Finite 2].
Proof. vm_compute. reflexivity. Qed.

Example read_sample_no_numbers :
  read_lcr_csv_lcr6300 Sample.files Sample.path4 10 None "Z(OHM)" 2 Sample.kilo
  = Err (Raise ValueError "No numeric impedance values parsed in LIST0004.CSV").
Proof. vm_compute. reflexivity. Qed.

Example read_sample_too_few :
  read_lcr_csv_lcr6300 Sample.files Sample.path1 10 (Some 100%Z) "Z(OHM)" 2
                       Sample.kilo
  = Err (Raise ValueError
           "Not enough rows to reshape for LIST0001.CSV (len=4, num_freq=10)").
Proof. vm_compute. reflexivity. Qed.

Example read_missing :
  read_lcr_csv_lcr6300 Sample.files Sample.missing 10 None "Z(OHM)" 2
                       Sample.kilo
  = Err (Raise FileNotFoundError "data/LIST9999.CSV").
Proof. reflexivity. Qed.

(** Thirty rows under a header with the label at position 2: three sweeps of
    ten frequencies, ten averages. *)
Example thirty_rows :
  let rows := map (fun i => ("+1,+2,+" ++ PyStr.str_of_Z (Z.of_nat i))%string)
                  (seq 0 30) in
  parse_lines Sample.path1 10 None "Z(OHM)" 2 (Finite 1)
              ("F(HZ),R,Z(OHM)" :: rows)
  = Ok (map Finite [10; 11; 12; 13; 14; 15; 16; 17; 18; 19]%Q).
Proof. vm_compute. reflexivity. Qed.

(** * Properties *)

(** ** Strings and lists *)

Section ListFacts.
Context {A : Type}.

Lemma fold_collect (test : A -> bool) (l acc : list A) :
  fold_left (fun d x => if test x then d ++ [x] else d) l acc
  = acc ++ filter test l.
Proof.
  revert acc; induction l as [|x l IH]; intros acc; simpl.
  - now rewrite app_nil_r.
  - rewrite IH. destruct (test x); [|reflexivity].
    now rewrite <- app_assoc.
Qed.

Lemma nth_error_firstn_iff (n i : nat) (l : list A) (x : A) :
  nth_error (firstn n l) i = Some x <-> i < n /\ nth_error l i = Some x.
Proof.
  revert i l; induction n as [|n IH]; intros i l.
  - simpl. destruct i; simpl; split; try discriminate; intros [H _]; lia.
  - destruct l as [|y l]; simpl.
    + destruct i; simpl; split; try discriminate; intros [_ H]; discriminate.
    + destruct i as [|i]; simpl.
      * split; [intros H; split; [lia|exact H] | intros [_ H]; exact H].
      * rewrite IH. split; intros [H1 H2]; split; auto; lia.
Qed.

End ListFacts.

Lemma startswith_spec (n h : string) :
  PyStr.startswith n h = true <-> exists b, h = (n ++ b)%string.
Proof.
  revert h; induction n as [|a n IH]; intros h.
  - split; [intros _; now exists h | reflexivity].
  - destruct h as [|b h]; simpl.
    + split; [discriminate | intros [x Hx]; discriminate].
    + rewrite andb_true_iff, Ascii.eqb_eq, IH. split.
      * intros [-> [x Hx]]. exists x. now rewrite Hx.
      * intros [x Hx]. inversion Hx. split; [reflexivity|now exists x].
Qed.

Lemma contains_spec (needle hay : string) :
  PyStr.contains needle hay = true <-> is_substring needle hay.
Proof.
  induction hay as [|c hay IH]; cbn [PyStr.contains].
  - rewrite orb_false_r, startswith_spec. split.
    + intros [b Hb]. now exists EmptyString, b.
    + intros [a [b Hab]]. destruct a; [now exists b|discriminate].
  - rewrite orb_true_iff, startswith_spec, IH. split.
    + intros [[b Hb]|[a [b Hab]]].
      * now exists EmptyString, b.
      * exists (String c a), b. simpl. now rewrite Hab.
    + intros [a [b Hab]]. destruct a as [|c' a]; simpl in Hab.
      * left. now exists b.
      * right. inversion Hab. now exists a, b.
Qed.

Lemma contains_false_spec (needle hay : string) :
  PyStr.contains needle hay = false <-> ~ is_substring needle hay.
Proof.
  rewrite <- contains_spec. destruct (PyStr.contains needle hay); split;
    congruence.
Qed.

Lemma rstrip_by_keeps_head (p : ascii -> bool) (c : ascii) (s : string) :
  p c = false -> exists r, PyStr.rstrip_by p (String c s) = String c r.
Proof.
  intros Hc. simpl. destruct (PyStr.rstrip_by p s) as [|d r].
  - rewrite Hc. now exists EmptyString.
  - now exists (String d r).
Qed.

Lemma strip_head (s : string) :
  match PyStr.strip s with
  | EmptyString => first_non_whitespace s = None
  | String c _ => first_non_whitespace s = Some c
  end.
Proof.
  unfold PyStr.strip. induction s as [|c s IH]; [reflexivity|].
  cbn [PyStr.lstrip_by first_non_whitespace].
  destruct (PyStr.py_isspace c) eqn:Hc; [exact IH|].
  destruct (rstrip_by_keeps_head PyStr.py_isspace c s Hc) as [r Hr].
  now rewrite Hr.
Qed.

(** ** The candidate data lines *)

Lemma accepted_after_header_spec (ln : string) :
  accepted_after_header ln = candidate_after_header ln.
Proof.
  unfold accepted_after_header, candidate_after_header.
  pose proof (strip_head ln) as H.
  destruct (PyStr.strip ln); now rewrite H.
Qed.

Lemma accepted_without_header_spec (ln : string) :
  accepted_without_header ln = candidate_without_header ln.
Proof.
  unfold accepted_without_header, candidate_without_header.
  pose proof (strip_head ln) as H.
  destruct (PyStr.strip ln) as [|c r]; rewrite H; [reflexivity|].
  cbn [PyStr.startswith]. rewrite andb_true_r. apply Ascii.eqb_sym.
Qed.

Lemma collect_data_lines_filter (header_idx : option nat) (lines : list string) :
  collect_data_lines header_idx lines =
  match header_idx with
  | Some h => filter accepted_after_header (skipn (h + 1) lines)
  | None => filter accepted_without_header lines
  end.
Proof.
  unfold collect_data_lines, collect_step, PyList.slice_from.
  destruct header_idx; now rewrite fold_collect.
Qed.

(** C3: the candidate data lines are, after a located header, the later
    lines that are not blank and whose first character other than white
    space is a plus, a digit or a minus, in file order up to the end of the
    file; without a header they are the lines of the whole file that start
    with a plus after leading white space, so that a line starting with a
    digit or a minus is then no candidate. *)
Theorem candidate_lines_spec (header_idx : option nat) (lines : list string) :
  collect_data_lines header_idx lines =
  match header_idx with
  | Some h => filter candidate_after_header (skipn (h + 1) lines)
  | None => filter candidate_without_header lines
  end
  /\ (forall ln c,
        first_non_whitespace ln = Some c ->
        PyStr.py_isdigit c = true \/ c = "-"%char ->
        candidate_without_header ln = false
        /\ ~ In ln (collect_data_lines None lines)).
Proof.
  split.
  - rewrite collect_data_lines_filter. destruct header_idx.
    + apply filter_ext. exact accepted_after_header_spec.
    + apply filter_ext. exact accepted_without_header_spec.
  - intros ln c Hc Hd.
    assert (Hno : candidate_without_header ln = false).
    { unfold candidate_without_header. rewrite Hc.
      destruct Hd as [Hd| ->]; [|reflexivity].
      apply Ascii.eqb_neq. intros ->. discriminate. }
    split; [exact Hno|].
    rewrite collect_data_lines_filter, filter_In.
    rewrite accepted_without_header_spec, Hno. intros [_ H]. discriminate.
Qed.

(** ** The header and the column *)

Lemma find_header_from_some (col : string) (ls : list string) (i k : nat) :
  find_header_from col i ls = Some k <->
  exists j, k = i + j
    /\ (exists ln, nth_error ls j = Some ln /\ PyStr.contains col ln = true)
    /\ (forall j' ln', j' < j -> nth_error ls j' = Some ln' ->
                       PyStr.contains col ln' = false).
Proof.
  revert i; induction ls as [|ln ls IH]; intros i; simpl.
  - split; [discriminate|].
    intros [j [_ [[ln [H _]] _]]]. destruct j; discriminate.
  - destruct (PyStr.contains col ln) eqn:Hc.
    + split.
      * intros H. inversion H; subst k. exists 0. split; [lia|]. split.
        -- now exists ln.
        -- intros j' ln' Hj. lia.
      * intros [j [Hk [_ Hmin]]]. destruct j as [|j]; [f_equal; lia|].
        specialize (Hmin 0 ln (Nat.lt_0_succ j) eq_refl). congruence.
    + rewrite IH. split.
      * intros [j [Hk [Hex Hmin]]]. exists (S j). split; [lia|]. split.
        -- exact Hex.
        -- intros [|j'] ln' Hj Hn; simpl in Hn.
           ++ now inversion Hn; subst.
           ++ apply (Hmin j'); [lia|exact Hn].
      * intros [j [Hk [[ln' [Hn Hc']] Hmin]]]. destruct j as [|j]; simpl in Hn.
        -- inversion Hn; subst. congruence.
        -- exists j. split; [lia|]. split; [now exists ln'|].
           intros j' ln'' Hj Hn'. apply (Hmin (S j')); [lia|exact Hn'].
Qed.

Lemma find_header_from_none (col : string) (ls : list string) (i : nat) :
  find_header_from col i ls = None <->
  forall j ln, nth_error ls j = Some ln -> PyStr.contains col ln = false.
Proof.
  revert i; induction ls as [|ln ls IH]; intros i; simpl.
  - split; [|reflexivity]. intros _ j ln H. destruct j; discriminate.
  - destruct (PyStr.contains col ln) eqn:Hc.
    + split; [discriminate|]. intros H.
      specialize (H 0 ln eq_refl). congruence.
    + rewrite IH. split.
      * intros H [|j] ln' Hn; simpl in Hn.
        -- now inversion Hn; subst.
        -- now apply (H j).
      * intros H j ln' Hn. now apply (H (S j)).
Qed.

Lemma index_of_spec (x : string) (l : list string) (i : nat) :
  PyList.index_of String.eqb x l = Some i <-> first_position x l i.
Proof.
  unfold first_position.
  revert i; induction l as [|y l IH]; intros i; simpl.
  - split; [discriminate|]. intros [H _]. destruct i; discriminate.
  - destruct (String.eqb x y) eqn:Hxy.
    + apply String.eqb_eq in Hxy. subst y. split.
      * intros H. inversion H; subst i. split; [reflexivity|]. intros j Hj. lia.
      * intros [_ Hmin]. destruct i as [|i]; [reflexivity|].
        now destruct (Hmin 0 (Nat.lt_0_succ i)).
    + apply String.eqb_neq in Hxy. split.
      * destruct (PyList.index_of String.eqb x l) as [k|] eqn:Hk;
          [|discriminate].
        simpl. intros H. inversion H; subst i.
        destruct (proj1 (IH k) eq_refl) as [H1 H2]. split; [exact H1|].
        intros [|j] Hj; simpl; [congruence|]. apply H2. lia.
      * intros [Hn Hmin]. destruct i as [|i]; simpl in Hn; [congruence|].
        assert (Hi : PyList.index_of String.eqb x l = Some i).
        { apply IH. split; [exact Hn|]. intros j Hj.
          apply (Hmin (S j)). lia. }
        now rewrite Hi.
Qed.

Lemma mem_spec (x : string) (l : list string) :
  PyList.mem String.eqb x l = true <-> In x l.
Proof.
  unfold PyList.mem. rewrite existsb_exists. split.
  - intros [y [Hy Hxy]]. apply String.eqb_eq in Hxy. now subst.
  - intros H. exists x. split; [exact H|apply String.eqb_refl].
Qed.

Lemma slice_to_40 {A : Type} (l : list A) : PyList.slice_to 40 l = firstn 40 l.
Proof. reflexivity. Qed.

(** C4: the header is the first of the first forty lines that contains the
    column label as a substring, and is absent when none of them does; the
    column read is the first position of the label among the fields of the
    header line when the label is one of them, and the fallback index in
    every other case, with or without a header. *)
Theorem header_and_column_spec (col_name : string) (fallback_col_index : Z)
  (lines : list string) :
  (forall i,
      find_header col_name lines = Some i <->
      i < 40
      /\ (exists ln, nth_error lines i = Some ln /\ is_substring col_name ln)
      /\ (forall j ln, j < i -> nth_error lines j = Some ln ->
                       ~ is_substring col_name ln))
  /\ (find_header col_name lines = None <->
      forall i ln, i < 40 -> nth_error lines i = Some ln ->
                   ~ is_substring col_name ln)
  /\ (forall h ln,
        find_header col_name lines = Some h ->
        nth_error lines h = Some ln ->
        (forall i, first_position col_name (fields ln) i ->
                   choose_column col_name fallback_col_index (Some h) lines
                   = Z.of_nat i)
        /\ (~ In col_name (fields ln) ->
            choose_column col_name fallback_col_index (Some h) lines
            = fallback_col_index))
  /\ choose_column col_name fallback_col_index None lines = fallback_col_index.
Proof.
  unfold find_header. rewrite slice_to_40.
  assert (Hsome : forall i,
      find_header_from col_name 0 (firstn 40 lines) = Some i <->
      i < 40
      /\ (exists ln, nth_error lines i = Some ln /\ is_substring col_name ln)
      /\ (forall j ln, j < i -> nth_error lines j = Some ln ->
                       ~ is_substring col_name ln)).
  { intros i. rewrite find_header_from_some. split.
    - intros [j [Hk [[ln [Hn Hc]] Hmin]]]. simpl in Hk. subst j.
      apply nth_error_firstn_iff in Hn. destruct Hn as [Hlt Hn].
      split; [exact Hlt|]. split.
      + exists ln. split; [exact Hn|now apply contains_spec].
      + intros j ln' Hj Hn'. apply contains_false_spec. apply (Hmin j); [exact Hj|].
        apply nth_error_firstn_iff. split; [lia|exact Hn'].
    - intros [Hlt [[ln [Hn Hs]] Hmin]]. exists i. split; [reflexivity|]. split.
      + exists ln. split; [now apply nth_error_firstn_iff|now apply contains_spec].
      + intros j ln' Hj Hn'. apply nth_error_firstn_iff in Hn'.
        apply contains_false_spec. now apply (Hmin j). }
  split; [exact Hsome|]. split; [|split].
  - rewrite find_header_from_none. split.
    + intros H i ln Hi Hn. apply contains_false_spec. apply (H i).
      now apply nth_error_firstn_iff.
    + intros H j ln Hn. apply nth_error_firstn_iff in Hn.
      apply contains_false_spec. now apply (H j).
  - intros h ln _ Hn. unfold choose_column.
    rewrite (nth_error_nth _ _ EmptyString Hn). split.
    + intros i Hi. pose proof Hi as Hi'. apply index_of_spec in Hi'.
      assert (Hin : In col_name (fields ln))
        by (destruct Hi as [Hi _]; now apply nth_error_In in Hi).
      apply mem_spec in Hin. now rewrite Hin, Hi'.
    + intros Hnot. destruct (PyList.mem String.eqb col_name (fields ln)) eqn:Hm;
        [|reflexivity].
      apply mem_spec in Hm. contradiction.
  - reflexivity.
Qed.

(** ** Reshaping and averaging *)

Lemma slice_to_length_le {A : Type} (n : Z) (l : list A) :
  List.length (PyList.slice_to n l) <= List.length l.
Proof.
  unfold PyList.slice_to.
  destruct (0 <=? n)%Z; rewrite length_firstn; lia.
Qed.

Lemma slice_to_nonneg {A : Type} (n : nat) (l : list A) :
  PyList.slice_to (Z.of_nat n) l = firstn n l.
Proof.
  unfold PyList.slice_to.
  destruct (0 <=? Z.of_nat n)%Z eqn:H; [now rewrite Nat2Z.id|].
  apply Z.leb_gt in H. lia.
Qed.

Lemma column_chunks (k c j : nat) (l : list pyfloat) :
  j < c -> k * c <= List.length l ->
  Np.column j (Np.chunks k c l)
  = map (fun i => nth (i * c + j) l NaN) (seq 0 k).
Proof.
  intros Hj. revert l. induction k as [|k IH]; intros l Hlen; [reflexivity|].
  cbn [Np.chunks Np.column map seq].
  rewrite <- seq_shift, map_map. f_equal.
  - rewrite nth_firstn. apply Nat.ltb_lt in Hj. now rewrite Hj.
  - change (map (fun row => nth j row NaN) (Np.chunks k c (skipn c l)))
      with (Np.column j (Np.chunks k c (skipn c l))).
    rewrite IH by (rewrite length_skipn; simpl in Hlen; lia).
    apply map_ext. intros i. rewrite nth_skipn. f_equal. lia.
Qed.

Lemma chunks_length (r c : nat) (l : list pyfloat) :
  List.length (Np.chunks r c l) = r.
Proof.
  revert l; induction r as [|r IH]; intros l; simpl; [reflexivity|].
  now rewrite IH.
Qed.

Lemma trimmed_length_le (t : option Z) (values : list pyfloat) :
  List.length (trimmed t values) <= List.length values.
Proof. destruct t; simpl; [apply slice_to_length_le|lia]. Qed.

Lemma reshape_exact (l : list pyfloat) (r c : nat) :
  List.length l = r * c ->
  Np.reshape l (Z.of_nat r) (Z.of_nat c)
  = Ok (Np.Array2 r c (Np.chunks r c l)).
Proof.
  intros Hlen. unfold Np.reshape.
  destruct (Z.of_nat r <? 0)%Z eqn:Hr; [apply Z.ltb_lt in Hr; lia|].
  destruct (Z.of_nat c <? 0)%Z eqn:Hc; [apply Z.ltb_lt in Hc; lia|].
  simpl. rewrite Hlen.
  replace (Z.of_nat r * Z.of_nat c =? Z.of_nat (r * c))%Z with true
    by (symmetry; apply Z.eqb_eq; lia).
  now rewrite !Nat2Z.id.
Qed.

(** With a positive [num_freq], fewer values than [num_freq] end in the
    reshape error, and [num_freq] values or more are averaged. *)
Lemma reshape_and_average_pos (p : Path) (num_freq : Z)
  (trim_first_n : option Z) (scale : pyfloat) (values : list pyfloat) :
  (0 < num_freq)%Z ->
  reshape_and_average p num_freq trim_first_n scale values =
  if (Z.of_nat (List.length values) <? num_freq)%Z then
    Err (not_enough_rows p (List.length (trimmed trim_first_n values)) num_freq)
  else
    Ok (block_means (Z.to_nat (Z.of_nat (List.length values) / num_freq))
                    (Z.to_nat num_freq) scale values).
Proof.
  intros Hpos. unfold reshape_and_average, repeats.
  assert (Hnz : (num_freq =? 0)%Z = false) by (apply Z.eqb_neq; lia).
  rewrite Hnz. cbn [bind].
  set (n := Z.of_nat (List.length values)).
  destruct (n <? num_freq)%Z eqn:Hlt.
  - apply Z.ltb_lt in Hlt.
    assert (Hq : (n / num_freq = 0)%Z) by (apply Z.div_small; lia).
    rewrite Hq. cbn [Z.eqb].
    destruct trim_first_n as [t|]; cbn [bind trimmed].
    + cbn [bind snd fst].
      pose proof (slice_to_length_le t values) as Hle.
      rewrite Z.div_small by lia. reflexivity.
    + reflexivity.
  - apply Z.ltb_ge in Hlt.
    assert (Hq : (1 <= n / num_freq)%Z)
      by (apply Z.div_le_lower_bound; lia).
    destruct (n / num_freq =? 0)%Z eqn:Hz; [apply Z.eqb_eq in Hz; lia|].
    cbn [bind snd fst].
    set (r := Z.to_nat (n / num_freq)). set (c := Z.to_nat num_freq).
    assert (Hrc : (n / num_freq * num_freq)%Z = Z.of_nat (r * c)).
    { unfold r, c. rewrite Nat2Z.inj_mul, !Z2Nat.id; lia. }
    assert (Hle : r * c <= List.length values).
    { apply Nat2Z.inj_le. rewrite <- Hrc. fold n.
      rewrite Z.mul_comm. apply Z.mul_div_le. lia. }
    rewrite Hrc, slice_to_nonneg.
    replace (n / num_freq)%Z with (Z.of_nat r) by (unfold r; lia).
    replace num_freq with (Z.of_nat c) at 1 by (unfold c; lia).
    rewrite reshape_exact by (rewrite length_firstn; lia).
    reflexivity.
Qed.

Lemma div_by_negative (n d : Z) : (0 <= n)%Z -> (d < 0)%Z -> (n / d <= 0)%Z.
Proof.
  intros Hn Hd.
  pose proof (Z.mod_neg_bound n d Hd) as Hm.
  pose proof (Z.div_mod n d ltac:(lia)) as Hdm.
  nia.
Qed.

Lemma reshape_two_negative (l : list pyfloat) (r c : Z) :
  (r < 0)%Z -> (c < 0)%Z ->
  Np.reshape l r c
  = Err (Raise ValueError "can only specify one unknown dimension").
Proof.
  intros Hr Hc. unfold Np.reshape.
  apply Z.ltb_lt in Hr, Hc. now rewrite Hr, Hc.
Qed.

Lemma block_means_length (r c : nat) (scale : pyfloat) (values : list pyfloat) :
  List.length (block_means r c scale values) = c.
Proof.
  unfold block_means, Np.times. now rewrite !length_map, length_seq.
Qed.

(** The averages exist only for a positive [num_freq]. *)
Lemma reshape_and_average_ok_pos (p : Path) (num_freq : Z)
  (trim_first_n : option Z) (scale : pyfloat) (values avg : list pyfloat) :
  reshape_and_average p num_freq trim_first_n scale values = Ok avg ->
  (0 < num_freq)%Z.
Proof.
  intros H. destruct (Z.lt_trichotomy num_freq 0) as [Hneg|[Hz|Hpos]];
    [exfalso| exfalso |exact Hpos].
  - unfold reshape_and_average, repeats in H.
    assert (Hnz : (num_freq =? 0)%Z = false) by (apply Z.eqb_neq; lia).
    rewrite Hnz in H. cbn [bind] in H.
    assert (Hdiv : forall l : list pyfloat,
               (Z.of_nat (List.length l) / num_freq <= 0)%Z)
      by (intros l; apply div_by_negative; lia).
    destruct (Z.of_nat (List.length values) / num_freq =? 0)%Z eqn:Hq.
    + destruct trim_first_n as [t|]; cbn [bind fst snd] in H.
      * destruct (Z.of_nat (List.length (PyList.slice_to t values)) / num_freq
                  =? 0)%Z eqn:Hq'; cbn [bind fst snd] in H; [discriminate|].
        apply Z.eqb_neq in Hq'.
        pose proof (Hdiv (PyList.slice_to t values)) as Hle.
        rewrite reshape_two_negative in H by lia. discriminate.
      * rewrite Hq in H. discriminate.
    + cbn [bind fst snd] in H. apply Z.eqb_neq in Hq.
      pose proof (Hdiv values) as Hle.
      rewrite reshape_two_negative in H by lia. discriminate.
  - subst num_freq. discriminate.
Qed.

Lemma reshape_and_average_length (p : Path) (num_freq : Z)
  (trim_first_n : option Z) (scale : pyfloat) (values avg : list pyfloat) :
  reshape_and_average p num_freq trim_first_n scale values = Ok avg ->
  Z.of_nat (List.length avg) = num_freq.
Proof.
  intros H. pose proof (reshape_and_average_ok_pos _ _ _ _ _ _ H) as Hpos.
  rewrite reshape_and_average_pos in H by exact Hpos.
  destruct (Z.of_nat (List.length values) <? num_freq)%Z; [discriminate|].
  inversion H. rewrite block_means_length. lia.
Qed.

(** The reader, stage by stage. *)
Lemma parse_lines_stages (p : Path) (num_freq : Z) (trim_first_n : option Z)
  (col_name : string) (fallback_col_index : Z) (scale : pyfloat)
  (lines : list string) :
  parse_lines p num_freq trim_first_n col_name fallback_col_index scale lines =
  match collect_data_lines (find_header col_name lines) lines with
  | [] => Err (no_data_lines p)
  | _ :: _ =>
      match extracted_values col_name fallback_col_index lines with
      | Err e => Err e
      | Ok [] => Err (no_numeric_values p)
      | Ok (v :: vs) =>
          reshape_and_average p num_freq trim_first_n scale (v :: vs)
      end
  end.
Proof.
  unfold parse_lines, extracted_values.
  destruct (collect_data_lines (find_header col_name lines) lines);
    [reflexivity|].
  destruct (collect_values _ _) as [[|v vs]|e]; reflexivity.
Qed.

Lemma extracted_values_no_lines (col_name : string) (fallback_col_index : Z)
  (lines : list string) :
  collect_data_lines (find_header col_name lines) lines = [] ->
  extracted_values col_name fallback_col_index lines = Ok [].
Proof. unfold extracted_values. now intros ->. Qed.

Lemma parse_lines_of_values (p : Path) (num_freq : Z) (trim_first_n : option Z)
  (col_name : string) (fallback_col_index : Z) (scale : pyfloat)
  (lines : list string) (values : list pyfloat) :
  extracted_values col_name fallback_col_index lines = Ok values ->
  values <> [] ->
  parse_lines p num_freq trim_first_n col_name fallback_col_index scale lines
  = reshape_and_average p num_freq trim_first_n scale values.
Proof.
  intros Hv Hne. rewrite parse_lines_stages.
  destruct (collect_data_lines (find_header col_name lines) lines) eqn:Hd.
  - rewrite (extracted_values_no_lines _ _ _ Hd) in Hv.
    inversion Hv. congruence.
  - rewrite Hv. destruct values; [congruence|reflexivity].
Qed.

Lemma parse_lines_ok_values (p : Path) (num_freq : Z) (trim_first_n : option Z)
  (col_name : string) (fallback_col_index : Z) (scale : pyfloat)
  (lines : list string) (avg : list pyfloat) :
  parse_lines p num_freq trim_first_n col_name fallback_col_index scale lines
  = Ok avg ->
  exists values,
    extracted_values col_name fallback_col_index lines = Ok values
    /\ values <> []
    /\ reshape_and_average p num_freq trim_first_n scale values = Ok avg.
Proof.
  rewrite parse_lines_stages.
  destruct (collect_data_lines (find_header col_name lines) lines);
    [discriminate|].
  destruct (extracted_values col_name fallback_col_index lines)
    as [[|v vs]|e]; try discriminate.
  intros H. exists (v :: vs). repeat split; [discriminate|exact H].
Qed.

(** C2: whenever the reader returns, the vector it returns has exactly
    [num_freq] entries, whatever the file and the parameters, and however
    many values were read or dropped. *)
Theorem result_length_is_num_freq (fs : filesystem) (p : Path) (num_freq : Z)
  (trim_first_n : option Z) (col_name : string) (fallback_col_index : Z)
  (scale : pyfloat) (avg : list pyfloat) :
  read_lcr_csv_lcr6300 fs p num_freq trim_first_n col_name
                       fallback_col_index scale = Ok avg ->
  Z.of_nat (List.length avg) = num_freq.
Proof.
  unfold read_lcr_csv_lcr6300.
  destruct (fs (path_text p)) as [text|]; [|discriminate].
  intros H. apply parse_lines_ok_values in H.
  destruct H as [values [_ [_ H]]].
  exact (reshape_and_average_length _ _ _ _ _ _ H).
Qed.

Lemma result_length_is_num_freq_witness :
  read_lcr_csv_lcr6300 Sample.files Sample.path1 2 None "Z(OHM)" 2 Sample.kilo
  = Ok [Finite (415453 # 20000); Finite 2]
  /\ Z.of_nat (List.length [Finite (415453 # 20000); Finite 2]) = 2%Z.
Proof.
  split; [vm_compute; reflexivity|].
  apply (result_length_is_num_freq Sample.files Sample.path1 2 None "Z(OHM)" 2
                                   Sample.kilo).
  vm_compute; reflexivity.
Defined.

(** ** The averages of the blocks *)

Lemma block_means_nth (r c j : nat) (scale : pyfloat) (values : list pyfloat) :
  j < c -> List.length values = r * c ->
  nth j (block_means r c scale values) NaN
  = pmul (Np.mean (map (fun i => nth (i * c + j) values NaN) (seq 0 r))) scale.
Proof.
  intros Hj Hlen. unfold block_means, Np.times.
  rewrite !map_map.
  rewrite (nth_indep _ NaN
             (pmul (Np.mean (Np.column 0
                (Np.chunks r c (firstn (r * c) values)))) scale))
    by (rewrite length_map, length_seq; exact Hj).
  rewrite (map_nth (fun j0 => pmul (Np.mean (Np.column j0
             (Np.chunks r c (firstn (r * c) values)))) scale) (seq 0 c) 0 j).
  rewrite seq_nth by exact Hj. simpl (0 + j).
  rewrite firstn_all2 by lia.
  rewrite column_chunks by (try exact Hj; lia).
  reflexivity.
Qed.

(** C1: when the data section of a file yields exactly [k * num_freq]
    values, with [k >= 1] and a positive [num_freq], the reader returns a
    vector of [num_freq] entries, and entry [j] is the mean of the values at
    the flat indices [i * num_freq + j], for [i] from [0] to [k - 1], times
    [scale]. *)
Theorem block_average_spec (fs : filesystem) (p : Path) (num_freq : Z)
  (trim_first_n : option Z) (col_name : string) (fallback_col_index : Z)
  (scale : pyfloat) (text : string) (values : list pyfloat) (k : nat) :
  fs (path_text p) = Some text ->
  extracted_values col_name fallback_col_index (read_lines text) = Ok values ->
  (0 < num_freq)%Z ->
  1 <= k ->
  List.length values = k * Z.to_nat num_freq ->
  exists avg,
    read_lcr_csv_lcr6300 fs p num_freq trim_first_n col_name
                         fallback_col_index scale = Ok avg
    /\ List.length avg = Z.to_nat num_freq
    /\ forall j, j < Z.to_nat num_freq ->
         nth j avg NaN
         = pmul (Np.mean (map (fun i => nth (i * Z.to_nat num_freq + j)
                                            values NaN)
                              (seq 0 k)))
                scale.
Proof.
  intros Hfs Hv Hpos Hk Hlen.
  set (c := Z.to_nat num_freq) in *.
  assert (Hc : 0 < c) by (unfold c; lia).
  assert (Hne : values <> []).
  { intros ->. simpl in Hlen. nia. }
  assert (Hq : (Z.of_nat (List.length values) / num_freq)%Z = Z.of_nat k).
  { rewrite Hlen, Nat2Z.inj_mul. unfold c. rewrite Z2Nat.id by lia.
    apply Z.div_mul. lia. }
  exists (block_means k c scale values). split; [|split].
  - unfold read_lcr_csv_lcr6300. rewrite Hfs.
    rewrite (parse_lines_of_values _ _ _ _ _ _ _ _ Hv Hne).
    rewrite reshape_and_average_pos by exact Hpos.
    destruct (Z.of_nat (List.length values) <? num_freq)%Z eqn:Hlt.
    + apply Z.ltb_lt in Hlt. rewrite Hlen in Hlt. unfold c in Hlt. nia.
    + now rewrite Hq, Nat2Z.id.
  - apply block_means_length.
  - intros j Hj. now apply block_means_nth.
Qed.

Lemma block_average_spec_witness :
  Sample.files (path_text Sample.path1) = Some Sample.text
  /\ extracted_values "Z(OHM)" 2 (read_lines Sample.text) = Ok Sample.values1
  /\ (0 < 2)%Z
  /\ 1 <= 2
  /\ List.length Sample.values1 = 2 * Z.to_nat 2
  /\ exists avg,
       read_lcr_csv_lcr6300 Sample.files Sample.path1 2 None "Z(OHM)" 2
                            Sample.kilo = Ok avg
       /\ List.length avg = Z.to_nat 2
       /\ forall j, j < Z.to_nat 2 ->
            nth j avg NaN
            = pmul (Np.mean (map (fun i => nth (i * Z.to_nat 2 + j)
                                               Sample.values1 NaN)
                                 (seq 0 2)))
                   Sample.kilo.
Proof.
  assert (H1 : Sample.files (path_text Sample.path1) = Some Sample.text)
    by reflexivity.
  assert (H2 : extracted_values "Z(OHM)" 2 (read_lines Sample.text)
               = Ok Sample.values1) by (vm_compute; reflexivity).
  assert (H3 : (0 < 2)%Z) by lia.
  assert (H4 : 1 <= 2) by lia.
  assert (H5 : List.length Sample.values1 = 2 * Z.to_nat 2) by reflexivity.
  repeat (split; [assumption|]).
  exact (block_average_spec Sample.files Sample.path1 2 None "Z(OHM)" 2
                            Sample.kilo Sample.text Sample.values1 2
                            H1 H2 H3 H4 H5).
Defined.

(** ** The reshape error and [trim_first_n] *)

Lemma repeats_zero (values : list pyfloat) (num_freq : Z) :
  repeats values num_freq = Ok 0%Z <->
  (num_freq <> 0)%Z /\ (Z.of_nat (List.length values) / num_freq = 0)%Z.
Proof.
  unfold repeats. destruct (num_freq =? 0)%Z eqn:Hz.
  - apply Z.eqb_eq in Hz. split; [discriminate|]. intros [H _]. contradiction.
  - apply Z.eqb_neq in Hz. split.
    + intros H. inversion H as [H']. now rewrite H'.
    + intros [_ H]. now rewrite H.
Qed.

Lemma zero_blocks_stay_zero (n n' d : Z) :
  (d <> 0)%Z -> (0 <= n' <= n)%Z -> (n / d = 0)%Z -> (n' / d = 0)%Z.
Proof.
  intros Hd Hn Hq. apply Z.div_small_iff in Hq; [|exact Hd].
  apply Z.div_small_iff; [exact Hd|]. lia.
Qed.

Lemma reshape_and_average_zero_blocks (p : Path) (num_freq : Z)
  (trim_first_n : option Z) (scale : pyfloat) (values : list pyfloat) :
  repeats values num_freq = Ok 0%Z ->
  reshape_and_average p num_freq trim_first_n scale values
  = Err (not_enough_rows p (List.length (trimmed trim_first_n values))
                         num_freq).
Proof.
  intros H. unfold reshape_and_average. rewrite H. cbn [bind Z.eqb].
  apply repeats_zero in H. destruct H as [Hd Hq].
  destruct trim_first_n as [t|]; cbn [trimmed bind fst snd]; [|reflexivity].
  assert (H' : repeats (PyList.slice_to t values) num_freq = Ok 0%Z).
  { apply repeats_zero. split; [exact Hd|].
    pose proof (slice_to_length_le t values) as Hle.
    apply (zero_blocks_stay_zero (Z.of_nat (List.length values))); lia. }
  rewrite H'. reflexivity.
Qed.

Lemma reshape_and_average_trim_irrelevant (p : Path) (num_freq t : Z)
  (scale : pyfloat) (values avg : list pyfloat) :
  reshape_and_average p num_freq (Some t) scale values = Ok avg ->
  reshape_and_average p num_freq None scale values = Ok avg.
Proof.
  intros H. destruct (repeats values num_freq) as [q|e] eqn:Hr.
  - destruct (Z.eq_dec q 0) as [->|Hq].
    + rewrite reshape_and_average_zero_blocks in H by exact Hr. discriminate.
    + unfold reshape_and_average in *. rewrite Hr in *. cbn [bind] in *.
      apply Z.eqb_neq in Hq. rewrite Hq in *. exact H.
  - unfold reshape_and_average in H. rewrite Hr in H. discriminate.
Qed.

(** C9: when the first count of blocks is zero, which for a file that gave
    values means fewer values than [num_freq], the reader raises the reshape
    error whatever [trim_first_n] is; and a call that succeeds with a
    [trim_first_n] succeeds with the same result without it. *)
Theorem trim_never_recovers (fs : filesystem) (p : Path) (num_freq : Z)
  (col_name : string) (fallback_col_index : Z) (scale : pyfloat)
  (text : string) (values : list pyfloat) :
  fs (path_text p) = Some text ->
  extracted_values col_name fallback_col_index (read_lines text) = Ok values ->
  values <> [] ->
  repeats values num_freq = Ok 0%Z ->
  (Z.of_nat (List.length values) < num_freq)%Z
  /\ (forall trim_first_n,
        read_lcr_csv_lcr6300 fs p num_freq trim_first_n col_name
                             fallback_col_index scale
        = Err (not_enough_rows p (List.length (trimmed trim_first_n values))
                               num_freq)
        /\ (List.length (trimmed trim_first_n values)
            <= List.length values)%nat)
  /\ (forall t avg,
        read_lcr_csv_lcr6300 fs p num_freq (Some t) col_name
                             fallback_col_index scale = Ok avg ->
        read_lcr_csv_lcr6300 fs p num_freq None col_name
                             fallback_col_index scale = Ok avg).
Proof.
  intros Hfs Hv Hne Hr. split; [|split].
  - apply repeats_zero in Hr. destruct Hr as [Hd Hq].
    apply Z.div_small_iff in Hq; [|exact Hd].
    destruct values; [congruence|]. simpl List.length in *. lia.
  - intros trim. split; [|apply trimmed_length_le].
    unfold read_lcr_csv_lcr6300. rewrite Hfs.
    rewrite (parse_lines_of_values _ _ _ _ _ _ _ _ Hv Hne).
    now apply reshape_and_average_zero_blocks.
  - intros t avg. unfold read_lcr_csv_lcr6300. rewrite Hfs.
    rewrite !(parse_lines_of_values _ _ _ _ _ _ _ _ Hv Hne).
    apply reshape_and_average_trim_irrelevant.
Qed.

Lemma trim_never_recovers_witness :
  Sample.files (path_text Sample.path1) = Some Sample.text
  /\ extracted_values "Z(OHM)" 2 (read_lines Sample.text) = Ok Sample.values1
  /\ Sample.values1 <> []
  /\ repeats Sample.values1 5 = Ok 0%Z
  /\ read_lcr_csv_lcr6300 Sample.files Sample.path1 5 (Some 100%Z) "Z(OHM)" 2
                          Sample.kilo
     = Err (not_enough_rows Sample.path1 4 5).
Proof.
  assert (H1 : Sample.files (path_text Sample.path1) = Some Sample.text)
    by reflexivity.
  assert (H2 : extracted_values "Z(OHM)" 2 (read_lines Sample.text)
               = Ok Sample.values1) by (vm_compute; reflexivity).
  assert (H3 : Sample.values1 <> []) by discriminate.
  assert (H4 : repeats Sample.values1 5 = Ok 0%Z) by reflexivity.
  repeat (split; [assumption|]).
  exact (proj1 (proj1 (proj2 (trim_never_recovers Sample.files Sample.path1 5
                   "Z(OHM)" 2 Sample.kilo Sample.text Sample.values1
                   H1 H2 H3 H4)) (Some 100%Z))).
Defined.

(** ** The failures of the reader *)

Lemma index_error {A : Type} (l : list A) (i : Z) (e : exn) :
  PyList.index l i = Err e -> e = index_out_of_range.
Proof.
  unfold PyList.index.
  destruct (_ <? 0)%Z; [intros H; now inversion H|].
  destruct (nth_error l _); [discriminate|intros H; now inversion H].
Qed.

Lemma line_value_error (c : Z) (ln : string) (e : exn) :
  line_value c ln = Err e -> e = index_out_of_range.
Proof.
  unfold line_value.
  destruct (_ <=? c)%Z; [discriminate|].
  destruct (PyList.index (fields ln) c) eqn:Hi; [discriminate|].
  cbn [bind]. intros H. inversion H; subst. exact (index_error _ _ _ Hi).
Qed.

Lemma values_loop_error (c : Z) (data_lines : list string)
  (acc : result (list pyfloat)) (e : exn) :
  fold_left (values_step c) data_lines acc = Err e ->
  acc = Err e \/ e = index_out_of_range.
Proof.
  revert acc; induction data_lines as [|ln dl IH]; intros acc H; simpl in H.
  - now left.
  - destruct (IH _ H) as [Hs|He]; [|now right].
    unfold values_step in Hs. destruct acc as [values|e']; cbn [bind] in Hs.
    + right. destruct (line_value c ln) as [[v|]|e'] eqn:Hl;
        cbn [bind] in Hs; try discriminate.
      inversion Hs; subst. exact (line_value_error _ _ _ Hl).
    + now left.
Qed.

Lemma extracted_values_error (col_name : string) (fallback_col_index : Z)
  (lines : list string) (e : exn) :
  extracted_values col_name fallback_col_index lines = Err e ->
  e = index_out_of_range.
Proof.
  unfold extracted_values, collect_values. intros H.
  destruct (values_loop_error _ _ _ _ H) as [Hs|He]; [discriminate|exact He].
Qed.

(** The three messages differ whatever the file is called. *)
Lemma data_errors_distinct (p : Path) (n : nat) (num_freq : Z) :
  no_data_lines p <> no_numeric_values p
  /\ no_data_lines p <> not_enough_rows p n num_freq
  /\ no_numeric_values p <> not_enough_rows p n num_freq.
Proof.
  unfold no_data_lines, no_numeric_values, not_enough_rows.
  repeat split; intros H; inversion H.
Qed.

Lemma substring_after (a b : string) : is_substring b (a ++ b)%string.
Proof.
  exists a, EmptyString. f_equal.
  induction b as [|c b IH]; simpl; [reflexivity|now rewrite <- IH].
Qed.

Lemma substring_between (a b c : string) :
  is_substring b (a ++ b ++ c)%string.
Proof. now exists a, c. Qed.

(** C7: for a file that exists and a positive [num_freq], the reader fails
    with the no-data error exactly when there is no candidate data line;
    with the no-numeric error exactly when there are candidate lines and no
    value was parsed; with the reshape error exactly when values were parsed
    and they are fewer than [num_freq], whatever [trim_first_n] is; and each
    of the three messages names the file. *)
Theorem failure_conditions (fs : filesystem) (p : Path) (num_freq : Z)
  (trim_first_n : option Z) (col_name : string) (fallback_col_index : Z)
  (scale : pyfloat) (text : string) :
  fs (path_text p) = Some text ->
  (0 < num_freq)%Z ->
  let lines := read_lines text in
  let data_lines := collect_data_lines (find_header col_name lines) lines in
  let read := read_lcr_csv_lcr6300 fs p num_freq trim_first_n col_name
                                   fallback_col_index scale in
  (read = Err (no_data_lines p) <-> data_lines = [])
  /\ (read = Err (no_numeric_values p) <->
      data_lines <> []
      /\ extracted_values col_name fallback_col_index lines = Ok [])
  /\ ((exists n, read = Err (not_enough_rows p n num_freq)) <->
      data_lines <> []
      /\ exists values,
           extracted_values col_name fallback_col_index lines = Ok values
           /\ values <> []
           /\ (Z.of_nat (List.length values) < num_freq)%Z
           /\ (Z.of_nat (List.length (trimmed trim_first_n values))
               < num_freq)%Z)
  /\ (is_substring (name p) (msg (no_data_lines p))
      /\ is_substring (name p) (msg (no_numeric_values p))
      /\ forall n, is_substring (name p) (msg (not_enough_rows p n num_freq))).
Proof.
  intros Hfs Hpos lines data_lines read.
  assert (Hread : read =
    match data_lines with
    | [] => Err (no_data_lines p)
    | _ :: _ =>
        match extracted_values col_name fallback_col_index lines with
        | Err e => Err e
        | Ok [] => Err (no_numeric_values p)
        | Ok (v :: vs) =>
            if (Z.of_nat (List.length (v :: vs)) <? num_freq)%Z then
              Err (not_enough_rows p
                     (List.length (trimmed trim_first_n (v :: vs))) num_freq)
            else
              Ok (block_means
                    (Z.to_nat (Z.of_nat (List.length (v :: vs)) / num_freq))
                    (Z.to_nat num_freq) scale (v :: vs))
        end
    end).
  { unfold read, read_lcr_csv_lcr6300. rewrite Hfs.
    fold lines. rewrite parse_lines_stages. fold data_lines.
    destruct data_lines; [reflexivity|].
    destruct (extracted_values col_name fallback_col_index lines)
      as [[|v vs]|e]; try reflexivity.
    now apply reshape_and_average_pos. }
  clearbody read data_lines. subst read.
  split; [|split; [|split]].
  - destruct data_lines as [|d dl]; [tauto|].
    split; [|discriminate]. intros H. exfalso.
    destruct (extracted_values col_name fallback_col_index lines)
      as [[|v vs]|e] eqn:Hv.
    + inversion H.
    + destruct (_ <? num_freq)%Z; inversion H.
    + apply extracted_values_error in Hv. subst e. inversion H.
  - destruct data_lines as [|d dl].
    + split; [intros H; inversion H|intros [H _]; congruence].
    + destruct (extracted_values col_name fallback_col_index lines)
        as [[|v vs]|e] eqn:Hv.
      * split; [intros _; split; [discriminate|reflexivity]|reflexivity].
      * split; [|intros [_ H]; discriminate].
        destruct (_ <? num_freq)%Z; intros H; inversion H.
      * apply extracted_values_error in Hv. subst e.
        split; [intros H; inversion H|intros [_ H]; discriminate].
  - destruct data_lines as [|d dl].
    + split; [intros [n H]; inversion H|intros [H _]; congruence].
    + destruct (extracted_values col_name fallback_col_index lines)
        as [[|v vs]|e] eqn:Hv.
      * split; [intros [n H]; inversion H|].
        intros [_ [values [H [Hne _]]]]. inversion H. congruence.
      * destruct (_ <? num_freq)%Z eqn:Hlt.
        -- split; [|intros _; eexists; reflexivity].
           intros _. split; [discriminate|]. exists (v :: vs).
           apply Z.ltb_lt in Hlt.
           pose proof (trimmed_length_le trim_first_n (v :: vs)) as Hle.
           repeat split; try discriminate; lia.
        -- split; [intros [n H]; discriminate|].
           intros [_ [values [H [_ [Hlt' _]]]]]. inversion H; subst values.
           apply Z.ltb_ge in Hlt. lia.
      * apply extracted_values_error in Hv. subst e.
        split; [intros [n H]; inversion H|].
        intros [_ [values [H _]]]. discriminate.
  - repeat split.
    + apply substring_after.
    + apply substring_after.
    + intros n. unfold not_enough_rows. cbn [msg]. apply substring_between.
Qed.

Lemma failure_conditions_witness :
  Sample.files (path_text Sample.path3) = Some Sample.text_no_data
  /\ (0 < 10)%Z
  /\ read_lcr_csv_lcr6300 Sample.files Sample.path3 10 (Some 100%Z) "Z(OHM)" 2
                          Sample.kilo
     = Err (no_data_lines Sample.path3).
Proof.
  assert (H1 : Sample.files (path_text Sample.path3)
               = Some Sample.text_no_data) by reflexivity.
  assert (H2 : (0 < 10)%Z) by reflexivity.
  repeat (split; [assumption|]).
  exact (proj2 (proj1 (failure_conditions Sample.files Sample.path3 10
                         (Some 100%Z) "Z(OHM)" 2 Sample.kilo
                         Sample.text_no_data H1 H2))
               eq_refl).
Defined.

(** C10: a missing file is reported by a [FileNotFoundError]; the three
    failures on the data of a file that exists (no candidate line, no value
    parsed, too few values for one block) are all [ValueError]s, which
    differ from one another by their message only. *)
Theorem data_failures_share_class (fs : filesystem) (p : Path) (num_freq : Z)
  (trim_first_n : option Z) (col_name : string) (fallback_col_index : Z)
  (scale : pyfloat) :
  let read := read_lcr_csv_lcr6300 fs p num_freq trim_first_n col_name
                                   fallback_col_index scale in
  (fs (path_text p) = None ->
   exists e, read = Err e /\ exc e = FileNotFoundError)
  /\ (forall text,
        fs (path_text p) = Some text ->
        let lines := read_lines text in
        let data_lines :=
          collect_data_lines (find_header col_name lines) lines in
        (data_lines = [] ->
         read = Err (no_data_lines p))
        /\ (data_lines <> [] ->
            extracted_values col_name fallback_col_index lines = Ok [] ->
            read = Err (no_numeric_values p))
        /\ (forall values,
              extracted_values col_name fallback_col_index lines = Ok values ->
              values <> [] ->
              repeats values num_freq = Ok 0%Z ->
              read = Err (not_enough_rows p
                            (List.length (trimmed trim_first_n values))
                            num_freq)))
  /\ (forall n,
        exc (no_data_lines p) = ValueError
        /\ exc (no_numeric_values p) = ValueError
        /\ exc (not_enough_rows p n num_freq) = ValueError
        /\ msg (no_data_lines p) <> msg (no_numeric_values p)
        /\ msg (no_data_lines p) <> msg (not_enough_rows p n num_freq)
        /\ msg (no_numeric_values p) <> msg (not_enough_rows p n num_freq))
  /\ FileNotFoundError <> ValueError.
Proof.
  intros read. unfold read, read_lcr_csv_lcr6300.
  split; [|split; [|split]].
  - intros ->. eexists. split; reflexivity.
  - intros text Hfs. rewrite Hfs. cbv zeta.
    set (lines := read_lines text).
    rewrite parse_lines_stages.
    set (data_lines := collect_data_lines (find_header col_name lines) lines).
    split; [|split].
    + now intros ->.
    + intros Hne Hv. rewrite Hv. destruct data_lines; [congruence|reflexivity].
    + intros values Hv Hne Hr.
      destruct data_lines eqn:Hd.
      * rewrite (extracted_values_no_lines _ _ _ Hd) in Hv.
        inversion Hv. congruence.
      * rewrite Hv. destruct values as [|v vs]; [congruence|].
        now apply reshape_and_average_zero_blocks.
  - intros n. repeat split; cbn [msg no_data_lines no_numeric_values
                                 not_enough_rows]; intros H; inversion H.
  - discriminate.
Qed.

(** ** One data line *)

Lemma index_in_range {A : Type} (l : list A) (c : Z) :
  (0 <= c)%Z -> (c < Z.of_nat (List.length l))%Z ->
  exists x, nth_error l (Z.to_nat c) = Some x /\ PyList.index l c = Ok x.
Proof.
  intros H0 Hlt. unfold PyList.index.
  destruct (c <? 0)%Z eqn:Hneg; [apply Z.ltb_lt in Hneg; lia|].
  rewrite Hneg.
  destruct (nth_error l (Z.to_nat c)) as [x|] eqn:Hn.
  - now exists x.
  - apply nth_error_None in Hn. lia.
Qed.

Lemma choose_column_nonneg (col_name : string) (fallback_col_index : Z)
  (header_idx : option nat) (lines : list string) :
  (0 <= fallback_col_index)%Z ->
  (0 <= choose_column col_name fallback_col_index header_idx lines)%Z.
Proof.
  intros H. unfold choose_column. destruct header_idx as [h|]; [|exact H].
  destruct (PyList.mem _ _ _); [|exact H].
  destruct (PyList.index_of _ _ _); [lia|exact H].
Qed.

Lemma line_value_short (c : Z) (ln : string) :
  (Z.of_nat (List.length (fields ln)) < c + 1)%Z -> line_value c ln = Ok None.
Proof.
  intros H. unfold line_value.
  destruct (_ <=? c)%Z eqn:Hle; [reflexivity|]. apply Z.leb_gt in Hle. lia.
Qed.

Lemma line_value_long (c : Z) (ln : string) :
  (0 <= c)%Z -> (c + 1 <= Z.of_nat (List.length (fields ln)))%Z ->
  exists valstr,
    nth_error (fields ln) (Z.to_nat c) = Some valstr
    /\ line_value c ln = Ok (parse_value valstr).
Proof.
  intros H0 H. unfold line_value.
  destruct (_ <=? c)%Z eqn:Hle; [apply Z.leb_le in Hle; lia|].
  destruct (index_in_range (fields ln) c H0 ltac:(lia)) as [x [Hn Hi]].
  exists x. now rewrite Hi.
Qed.

Lemma values_step_skip (c : Z) (acc : result (list pyfloat)) (ln : string) :
  line_value c ln = Ok None -> values_step c acc ln = acc.
Proof.
  intros H. unfold values_step. rewrite H. now destruct acc.
Qed.

Lemma collect_values_skip (c : Z) (before after : list string) (ln : string) :
  line_value c ln = Ok None ->
  collect_values c (before ++ ln :: after) = collect_values c (before ++ after).
Proof.
  intros H. unfold collect_values. rewrite !fold_left_app. simpl.
  now rewrite values_step_skip.
Qed.

(** C5, as the code has it: with a fallback index that is not negative, the
    column index [c] is the one chosen from the header, or the fallback.  A
    candidate line is split at the commas and each field stripped; with
    fewer than [c + 1] fields it is skipped, and leaves the values as they
    are without it; otherwise field [c] is parsed as a float, then parsed
    again without its plus signs if that fails, and skipped if that fails
    too.  No line aborts the file. *)
Theorem data_line_spec (col_name : string) (fallback_col_index : Z)
  (header_idx : option nat) (lines : list string) (ln : string) :
  (0 <= fallback_col_index)%Z ->
  let c := choose_column col_name fallback_col_index header_idx lines in
  let parts := fields ln in
  (Z.of_nat (List.length parts) < c + 1 -> line_value c ln = Ok None)%Z
  /\ ((c + 1 <= Z.of_nat (List.length parts))%Z ->
      exists valstr,
        nth_error parts (Z.to_nat c) = Some valstr
        /\ line_value c ln
           = Ok (match py_float valstr with
                 | Some v => Some v
                 | None => py_float (PyStr.remove_char "+"%char valstr)
                 end))
  /\ (exists r, line_value c ln = Ok r)
  /\ (line_value c ln = Ok None ->
      forall before after,
        collect_values c (before ++ ln :: after)
        = collect_values c (before ++ after)).
Proof.
  intros Hfb c parts.
  assert (Hc : (0 <= c)%Z) by (now apply choose_column_nonneg).
  split; [|split; [|split]].
  - apply line_value_short.
  - intros H. exact (line_value_long c ln Hc H).
  - destruct (Z_lt_le_dec (Z.of_nat (List.length parts)) (c + 1)) as [Hs|Hl].
    + exists None. now apply line_value_short.
    + destruct (line_value_long c ln Hc Hl) as [valstr [_ Hv]].
      now exists (parse_value valstr).
  - intros H before after. now apply collect_values_skip.
Qed.

Lemma data_line_spec_witness :
  (0 <= 2)%Z
  /\ line_value (choose_column "Z(OHM)" 2 (Some 1) (read_lines Sample.text))
                "+2.0E+01"
     = Ok None.
Proof.
  assert (H1 : (0 <= 2)%Z) by lia.
  split; [assumption|].
  apply (proj1 (data_line_spec "Z(OHM)" 2 (Some 1) (read_lines Sample.text)
                               "+2.0E+01" H1)).
  vm_compute. reflexivity.
Defined.

(** C5 as it is worded fails: the impedance column of this file is column 0,
    so its first data row, of one field, has fewer fields than the fallback
    index 2 plus one, and yet its value is read and averaged. *)
Lemma short_row_is_read :
  In "+5.0E+03"
     (collect_data_lines
        (find_header "Z(OHM)" (read_lines Sample.text_first_column))
        (read_lines Sample.text_first_column))
  /\ (Z.of_nat (List.length (fields "+5.0E+03")) < 2 + 1)%Z
  /\ line_value
       (choose_column "Z(OHM)" 2
          (find_header "Z(OHM)" (read_lines Sample.text_first_column))
          (read_lines Sample.text_first_column))
       "+5.0E+03"
     = Ok (Some (Finite 5000))
  /\ extracted_values "Z(OHM)" 2 (read_lines Sample.text_first_column)
     = Ok [Finite 5000; Finite 7000]
  /\ read_lcr_csv_lcr6300 Sample.files Sample.path2 1 None "Z(OHM)" 2
                          Sample.kilo
     = Ok [Finite 6].
Proof.
  repeat split; try (vm_compute; reflexivity).
  vm_compute. left. reflexivity.
Qed.

(** C6: the token [+3.15453E+04] in the column read is parsed at the first
    attempt, and its value is 31545.3. *)
Theorem signed_scientific_token (c : Z) (ln : string) :
  (0 <= c)%Z ->
  nth_error (fields ln) (Z.to_nat c) = Some "+3.15453E+04" ->
  py_float "+3.15453E+04" = Some (Finite 31545.3%Q)
  /\ line_value c ln = Ok (Some (Finite 31545.3%Q)).
Proof.
  intros Hc Hn. split; [vm_compute; reflexivity|].
  assert (Hlen : (c + 1 <= Z.of_nat (List.length (fields ln)))%Z).
  { assert (Z.to_nat c < List.length (fields ln))
      by (apply nth_error_Some; congruence). lia. }
  destruct (line_value_long c ln Hc Hlen) as [valstr [Hn' Hv]].
  rewrite Hv. assert (valstr = "+3.15453E+04") by congruence. subst valstr.
  vm_compute. reflexivity.
Qed.

Lemma signed_scientific_token_witness :
  (0 <= 1)%Z
  /\ nth_error (fields "+1.0E+01,+3.15453E+04,+1") (Z.to_nat 1)
     = Some "+3.15453E+04"
  /\ py_float "+3.15453E+04" = Some (Finite 31545.3%Q)
  /\ line_value 1 "+1.0E+01,+3.15453E+04,+1" = Ok (Some (Finite 31545.3%Q)).
Proof.
  assert (H1 : (0 <= 1)%Z) by lia.
  assert (H2 : nth_error (fields "+1.0E+01,+3.15453E+04,+1") (Z.to_nat 1)
               = Some "+3.15453E+04") by (vm_compute; reflexivity).
  repeat (split; [assumption|]).
  exact (signed_scientific_token 1 "+1.0E+01,+3.15453E+04,+1" H1 H2).
Defined.

(** ** The batch *)

Lemma load_step_loaded (fs : filesystem) (data_dir : string) (st : state)
  (fn : string) :
  loaded (load_step fs data_dir st fn) = keep fs data_dir (loaded st) fn.
Proof.
  unfold load_step, keep, outcome.
  destruct (path_exists fs (data_file data_dir fn)); simpl; [|reflexivity].
  now destruct (read_lcr_csv_lcr6300 _ _ _ _ _ _ _).
Qed.

Lemma load_step_printed (fs : filesystem) (data_dir : string) (st : state)
  (fn : string) :
  exists line, printed (load_step fs data_dir st fn) = printed st ++ [line]
    /\ (path_exists fs (data_file data_dir fn) = false ->
        line = PyStr.join_space ["NOT FOUND (skipped):"; fn]).
Proof.
  unfold load_step.
  destruct (path_exists fs (data_file data_dir fn)); simpl.
  - destruct (read_lcr_csv_lcr6300 _ _ _ _ _ _ _); simpl;
      eexists; (split; [reflexivity|discriminate]).
  - eexists; split; reflexivity.
Qed.

Lemma load_fold_loaded (fs : filesystem) (data_dir : string)
  (to_load : list string) (st : state) :
  loaded (fold_left (load_step fs data_dir) to_load st)
  = fold_left (keep fs data_dir) to_load (loaded st).
Proof.
  revert st; induction to_load as [|fn rest IH]; intros st; simpl;
    [reflexivity|].
  now rewrite IH, load_step_loaded.
Qed.

Lemma load_fold_printed_keeps (fs : filesystem) (data_dir : string)
  (to_load : list string) (st : state) (line : string) :
  In line (printed st) ->
  In line (printed (fold_left (load_step fs data_dir) to_load st)).
Proof.
  revert st; induction to_load as [|fn rest IH]; intros st H; simpl;
    [exact H|].
  apply IH. destruct (load_step_printed fs data_dir st fn) as [l [Hl _]].
  rewrite Hl. apply in_or_app. now left.
Qed.

Lemma load_fold_reports_missing (fs : filesystem) (data_dir : string)
  (to_load : list string) (st : state) (fn : string) :
  In fn to_load ->
  path_exists fs (data_file data_dir fn) = false ->
  In (PyStr.join_space ["NOT FOUND (skipped):"; fn])
     (printed (fold_left (load_step fs data_dir) to_load st)).
Proof.
  revert st; induction to_load as [|fn' rest IH]; intros st Hin Hmiss;
    [contradiction|].
  simpl. destruct Hin as [->|Hin].
  - apply load_fold_printed_keeps.
    destruct (load_step_printed fs data_dir st fn) as [l [Hl Hline]].
    rewrite Hl, (Hline Hmiss). apply in_or_app. right. now left.
  - now apply IH.
Qed.

Lemma keep_nothing (fs : filesystem) (data_dir : string)
  (to_load : list string) (d : dict (list pyfloat)) :
  (forall fn, In fn to_load -> outcome fs data_dir fn = None) ->
  fold_left (keep fs data_dir) to_load d = d.
Proof.
  revert d; induction to_load as [|fn rest IH]; intros d H; simpl;
    [reflexivity|].
  unfold keep at 2. rewrite (H fn (or_introl eq_refl)).
  apply IH. intros fn' Hin. apply H. now right.
Qed.

Lemma demo_data_is_placeholder : demo_data = placeholder.
Proof. vm_compute. reflexivity. Qed.

(** C8: the loop keeps, in order, the averages of the configured names whose
    file exists and is read, reports every name whose file is missing, and
    goes on after a failure of the reader; the batch is a total function,
    and when nothing was kept its result is exactly the placeholder set,
    whose baseline runs from 23 to 50 in steps of 3. *)
Theorem batch_spec (fs : filesystem) (data_dir : string)
  (to_load : list string) :
  loaded (load_loop fs data_dir to_load)
  = fold_left (keep fs data_dir) to_load []
  /\ (forall fn,
        In fn to_load ->
        path_exists fs (data_file data_dir fn) = false ->
        In ("NOT FOUND (skipped): " ++ fn)%string
           (printed (load_all fs data_dir to_load)))
  /\ ((forall fn,
         In fn to_load ->
         path_exists fs (data_file data_dir fn) = false
         \/ exists e,
              read_lcr_csv_lcr6300 fs (data_file data_dir fn) 10 (Some 100%Z)
                                   "Z(OHM)" 2 (Finite (1 # 1000)) = Err e) ->
      loaded (load_all fs data_dir to_load) = placeholder)
  /\ (loaded (load_loop fs data_dir to_load) = [] ->
      loaded (load_all fs data_dir to_load) = placeholder)
  /\ (loaded (load_loop fs data_dir to_load) <> [] ->
      load_all fs data_dir to_load = load_loop fs data_dir to_load)
  /\ placeholder_baseline
     = map Finite [23; 26; 29; 32; 35; 38; 41; 44; 47; 50]%Q.
Proof.
  assert (Hloaded : loaded (load_loop fs data_dir to_load)
                    = fold_left (keep fs data_dir) to_load [])
    by (unfold load_loop; now rewrite load_fold_loaded).
  assert (Hempty : loaded (load_loop fs data_dir to_load) = [] ->
                   loaded (load_all fs data_dir to_load) = placeholder).
  { intros H. unfold load_all. rewrite H. apply demo_data_is_placeholder. }
  split; [exact Hloaded|]. split; [|split; [|split; [exact Hempty|split]]].
  - intros fn Hin Hmiss.
    assert (Hp : In ("NOT FOUND (skipped): " ++ fn)%string
                    (printed (load_loop fs data_dir to_load)))
      by (now apply load_fold_reports_missing).
    unfold load_all. destruct (loaded (load_loop fs data_dir to_load));
      [|exact Hp].
    cbn [printed]. apply in_or_app. now left.
  - intros H. apply Hempty. rewrite Hloaded. apply keep_nothing.
    intros fn Hin. unfold outcome.
    destruct (H fn Hin) as [Hmiss|[e He]]; [now rewrite Hmiss|].
    rewrite He. now destruct (path_exists _ _).
  - intros H. unfold load_all.
    destruct (loaded (load_loop fs data_dir to_load)); [congruence|reflexivity].
  - vm_compute. reflexivity.
Qed.

Lemma batch_spec_witness :
  (forall fn,
      In fn ["LIST0003.CSV"; "LIST9999.CSV"] ->
      path_exists Sample.files (data_file "data" fn) = false
      \/ exists e,
           read_lcr_csv_lcr6300 Sample.files (data_file "data" fn) 10
                                (Some 100%Z) "Z(OHM)" 2 (Finite (1 # 1000))
           = Err e)
  /\ loaded (load_all Sample.files "data" ["LIST0003.CSV"; "LIST9999.CSV"])
     = placeholder.
Proof.
  assert (H : forall fn,
      In fn ["LIST0003.CSV"; "LIST9999.CSV"] ->
      path_exists Sample.files (data_file "data" fn) = false
      \/ exists e,
           read_lcr_csv_lcr6300 Sample.files (data_file "data" fn) 10
                                (Some 100%Z) "Z(OHM)" 2 (Finite (1 # 1000))
           = Err e).
  { intros fn [<-|[<-|[]]].
    - right. exists (no_data_lines (data_file "data" "LIST0003.CSV")).
      vm_compute. reflexivity.
    - left. reflexivity. }
  split; [exact H|].
  exact (proj1 (proj2 (proj2 (batch_spec Sample.files "data"
                                ["LIST0003.CSV"; "LIST9999.CSV"]))) H).
Defined.

(** * Further properties of the reader *)

Lemma firstn_app_exact {A : Type} (l extra : list A) (n : nat) :
  List.length l = n -> firstn n (l ++ extra) = firstn n l.
Proof.
  intros <-. rewrite firstn_app, Nat.sub_diag, firstn_O, app_nil_r.
  reflexivity.
Qed.

Lemma read_of_values (fs : filesystem) (p : Path) (num_freq : Z)
  (trim_first_n : option Z) (col_name : string) (fallback_col_index : Z)
  (scale : pyfloat) (text : string) (values : list pyfloat) :
  fs (path_text p) = Some text ->
  extracted_values col_name fallback_col_index (read_lines text) = Ok values ->
  values <> [] ->
  read_lcr_csv_lcr6300 fs p num_freq trim_first_n col_name
                       fallback_col_index scale
  = reshape_and_average p num_freq trim_first_n scale values.
Proof.
  intros Hfs Hv Hne. unfold read_lcr_csv_lcr6300. rewrite Hfs.
  now apply parse_lines_of_values.
Qed.

(** X1: for a file that exists and a positive [num_freq], the reader returns
    exactly when at least [num_freq] values were read, and it then returns
    the averages of the complete blocks. *)
Theorem read_succeeds_iff (fs : filesystem) (p : Path) (num_freq : Z)
  (trim_first_n : option Z) (col_name : string) (fallback_col_index : Z)
  (scale : pyfloat) (text : string) (avg : list pyfloat) :
  fs (path_text p) = Some text ->
  (0 < num_freq)%Z ->
  read_lcr_csv_lcr6300 fs p num_freq trim_first_n col_name
                       fallback_col_index scale = Ok avg
  <->
  exists values,
    extracted_values col_name fallback_col_index (read_lines text) = Ok values
    /\ (num_freq <= Z.of_nat (List.length values))%Z
    /\ avg = block_means
               (Z.to_nat (Z.of_nat (List.length values) / num_freq))
               (Z.to_nat num_freq) scale values.
Proof.
  intros Hfs Hpos. split.
  - intros H. unfold read_lcr_csv_lcr6300 in H. rewrite Hfs in H.
    apply parse_lines_ok_values in H. destruct H as [values [Hv [Hne H]]].
    rewrite reshape_and_average_pos in H by exact Hpos.
    destruct (_ <? num_freq)%Z eqn:Hlt; [discriminate|].
    apply Z.ltb_ge in Hlt. exists values. inversion H. auto.
  - intros [values [Hv [Hle ->]]].
    assert (Hne : values <> []) by (intros ->; simpl in Hle; lia).
    rewrite (read_of_values _ _ _ _ _ _ _ _ _ Hfs Hv Hne).
    rewrite reshape_and_average_pos by exact Hpos.
    apply Z.ltb_ge in Hle. now rewrite Hle.
Qed.

Lemma read_succeeds_iff_witness :
  Sample.files (path_text Sample.path1) = Some Sample.text
  /\ (0 < 2)%Z
  /\ read_lcr_csv_lcr6300 Sample.files Sample.path1 2 None "Z(OHM)" 2
                          Sample.kilo
     = Ok (block_means 2 2 Sample.kilo Sample.values1).
Proof.
  assert (H1 : Sample.files (path_text Sample.path1) = Some Sample.text)
    by reflexivity.
  assert (H2 : (0 < 2)%Z) by lia.
  repeat (split; [assumption|]).
  apply (proj2 (read_succeeds_iff Sample.files Sample.path1 2 None "Z(OHM)" 2
                  Sample.kilo Sample.text
                  (block_means 2 2 Sample.kilo Sample.values1) H1 H2)).
  exists Sample.values1. repeat split. vm_compute. discriminate.
Defined.

(** X2: values after the last complete block are dropped: a file whose values
    are [k] complete blocks followed by fewer than [num_freq] more values
    gives what the [k] blocks alone give. *)
Theorem incomplete_block_dropped (p : Path) (num_freq : Z)
  (trim_first_n : option Z) (col_name : string) (fallback_col_index : Z)
  (scale : pyfloat) (lines lines' : list string)
  (values extra : list pyfloat) (k : nat) :
  (0 < num_freq)%Z ->
  1 <= k ->
  List.length values = k * Z.to_nat num_freq ->
  List.length extra < Z.to_nat num_freq ->
  extracted_values col_name fallback_col_index lines = Ok values ->
  extracted_values col_name fallback_col_index lines' = Ok (values ++ extra) ->
  parse_lines p num_freq trim_first_n col_name fallback_col_index scale lines'
  = parse_lines p num_freq trim_first_n col_name fallback_col_index scale
                lines.
Proof.
  intros Hpos Hk Hlen Hextra Hv Hv'.
  set (c := Z.to_nat num_freq) in *.
  assert (Hc : 0 < c) by (unfold c; lia).
  assert (Hne : values <> []) by (intros ->; simpl in Hlen; nia).
  assert (Hne' : values ++ extra <> [])
    by (intros H; apply app_eq_nil in H; tauto).
  rewrite (parse_lines_of_values _ _ _ _ _ _ _ _ Hv Hne).
  rewrite (parse_lines_of_values _ _ _ _ _ _ _ _ Hv' Hne').
  rewrite !reshape_and_average_pos by exact Hpos.
  assert (Hnf : num_freq = Z.of_nat c) by (unfold c; lia).
  assert (Hq : (Z.of_nat (List.length values) / num_freq)%Z = Z.of_nat k).
  { rewrite Hlen, Nat2Z.inj_mul, Hnf. apply Z.div_mul. lia. }
  assert (Hq' : (Z.of_nat (List.length (values ++ extra)) / num_freq)%Z
                = Z.of_nat k).
  { rewrite length_app, Hlen, Hnf.
    symmetry. apply (Z.div_unique_pos _ _ _ (Z.of_nat (List.length extra)));
      lia. }
  rewrite Hq, Hq', Nat2Z.id.
  replace (Z.of_nat (List.length values) <? num_freq)%Z with false
    by (symmetry; apply Z.ltb_ge; rewrite Hlen; nia).
  replace (Z.of_nat (List.length (values ++ extra)) <? num_freq)%Z with false
    by (symmetry; apply Z.ltb_ge; rewrite length_app, Hlen; nia).
  unfold block_means. fold c. now rewrite (firstn_app_exact values extra).
Qed.

Lemma incomplete_block_dropped_witness :
  (0 < 2)%Z /\ 1 <= 1
  /\ parse_lines Sample.path1 2 None "Z(OHM)" 1 (Finite 1)
                 ["Z(OHM),A"; "+1,x"; "+3.5"; "+9"]
     = parse_lines Sample.path1 2 None "Z(OHM)" 1 (Finite 1)
                   ["Z(OHM),A"; "+1,x"; "+3.5"].
Proof.
  assert (H1 : (0 < 2)%Z) by lia.
  assert (H2 : 1 <= 1) by lia.
  repeat (split; [assumption|]).
  apply (incomplete_block_dropped Sample.path1 2 None "Z(OHM)" 1 (Finite 1)
           ["Z(OHM),A"; "+1,x"; "+3.5"] ["Z(OHM),A"; "+1,x"; "+3.5"; "+9"]
           [Finite 1; Finite (7 # 2)] [Finite 9] 1 H1 H2).
  - reflexivity.
  - simpl. lia.
  - vm_compute. reflexivity.
  - vm_compute. reflexivity.
Defined.

Lemma reshape_and_average_negative (p : Path) (num_freq : Z)
  (trim_first_n : option Z) (scale : pyfloat) (values : list pyfloat) :
  (num_freq < 0)%Z -> values <> [] ->
  reshape_and_average p num_freq trim_first_n scale values
  = Err (Raise ValueError "can only specify one unknown dimension").
Proof.
  intros Hneg Hne. unfold reshape_and_average, repeats.
  assert (Hnz : (num_freq =? 0)%Z = false) by (apply Z.eqb_neq; lia).
  rewrite Hnz. cbn [bind].
  assert (Hlen : (0 < Z.of_nat (List.length values))%Z)
    by (destruct values; [congruence|simpl List.length; lia]).
  assert (Hq : (Z.of_nat (List.length values) / num_freq < 0)%Z).
  { pose proof (Z.mod_neg_bound (Z.of_nat (List.length values)) num_freq Hneg).
    pose proof (Z.div_mod (Z.of_nat (List.length values)) num_freq
                  ltac:(lia)).
    nia. }
  destruct (_ / num_freq =? 0)%Z eqn:Hz; [apply Z.eqb_eq in Hz; lia|].
  cbn [bind fst snd]. now rewrite reshape_two_negative by lia.
Qed.

(** X3: with a [num_freq] that is not positive the reader never returns: once
    a value has been read, zero raises [ZeroDivisionError] and a negative
    number ends in the [ValueError] of numpy's reshape. *)
Theorem nonpositive_num_freq_fails (fs : filesystem) (p : Path) (num_freq : Z)
  (trim_first_n : option Z) (col_name : string) (fallback_col_index : Z)
  (scale : pyfloat) (text : string) (values : list pyfloat) :
  fs (path_text p) = Some text ->
  extracted_values col_name fallback_col_index (read_lines text) = Ok values ->
  values <> [] ->
  (num_freq <= 0)%Z ->
  read_lcr_csv_lcr6300 fs p num_freq trim_first_n col_name
                       fallback_col_index scale
  = Err (if (num_freq =? 0)%Z then division_by_zero
         else Raise ValueError "can only specify one unknown dimension").
Proof.
  intros Hfs Hv Hne Hle.
  rewrite (read_of_values _ _ _ _ _ _ _ _ _ Hfs Hv Hne).
  destruct (num_freq =? 0)%Z eqn:Hz.
  - apply Z.eqb_eq in Hz. subst num_freq. reflexivity.
  - apply Z.eqb_neq in Hz. apply reshape_and_average_negative; [lia|exact Hne].
Qed.

Lemma nonpositive_num_freq_fails_witness :
  Sample.files (path_text Sample.path1) = Some Sample.text
  /\ extracted_values "Z(OHM)" 2 (read_lines Sample.text) = Ok Sample.values1
  /\ Sample.values1 <> []
  /\ (0 <= 0)%Z
  /\ read_lcr_csv_lcr6300 Sample.files Sample.path1 0 None "Z(OHM)" 2
                          Sample.kilo
     = Err division_by_zero.
Proof.
  assert (H1 : Sample.files (path_text Sample.path1) = Some Sample.text)
    by reflexivity.
  assert (H2 : extracted_values "Z(OHM)" 2 (read_lines Sample.text)
               = Ok Sample.values1) by (vm_compute; reflexivity).
  assert (H3 : Sample.values1 <> []) by discriminate.
  assert (H4 : (0 <= 0)%Z) by lia.
  repeat (split; [assumption|]).
  exact (nonpositive_num_freq_fails Sample.files Sample.path1 0 None "Z(OHM)"
           2 Sample.kilo Sample.text Sample.values1 H1 H2 H3 H4).
Defined.

Lemma values_loop_error_sticky (c : Z) (data_lines : list string) (e : exn) :
  fold_left (values_step c) data_lines (Err e) = Err e.
Proof. induction data_lines as [|ln dl IH]; simpl; [reflexivity|exact IH]. Qed.

Lemma values_loop_fails (c : Z) (data_lines : list string)
  (acc : result (list pyfloat)) (ln : string) :
  In ln data_lines ->
  line_value c ln = Err index_out_of_range ->
  exists e, fold_left (values_step c) data_lines acc = Err e.
Proof.
  revert acc; induction data_lines as [|l dl IH]; intros acc Hin Hl;
    [contradiction|].
  simpl. destruct Hin as [->|Hin]; [|now apply IH].
  destruct acc as [values|e]; unfold values_step at 2; cbn [bind].
  - rewrite Hl. cbn [bind]. eexists. apply values_loop_error_sticky.
  - eexists. apply values_loop_error_sticky.
Qed.

(** X4: a negative column index counts the fields from the end, as Python
    does: a line with at least that many fields gives its field at that
    place, and a line with fewer raises [IndexError], which ends the loop
    over the data lines. *)
Theorem negative_column_index (c : Z) (ln : string) :
  (c < 0)%Z ->
  ((- c <= Z.of_nat (List.length (fields ln)))%Z ->
   exists valstr,
     nth_error (fields ln) (Z.to_nat (Z.of_nat (List.length (fields ln)) + c))
     = Some valstr
     /\ line_value c ln = Ok (parse_value valstr))
  /\ ((Z.of_nat (List.length (fields ln)) < - c)%Z ->
      line_value c ln = Err index_out_of_range
      /\ forall data_lines,
           In ln data_lines ->
           collect_values c data_lines = Err index_out_of_range).
Proof.
  intros Hc.
  assert (Hnot : (Z.of_nat (List.length (fields ln)) <=? c)%Z = false)
    by (apply Z.leb_gt; lia).
  assert (Hneg : (c <? 0)%Z = true) by (now apply Z.ltb_lt).
  split.
  - intros Hlen. unfold line_value, PyList.index. rewrite Hnot, Hneg.
    destruct (Z.of_nat (List.length (fields ln)) + c <? 0)%Z eqn:Hj;
      [apply Z.ltb_lt in Hj; lia|].
    destruct (nth_error (fields ln) _) as [valstr|] eqn:Hn.
    + now exists valstr.
    + apply nth_error_None in Hn. lia.
  - intros Hlen.
    assert (Hl : line_value c ln = Err index_out_of_range).
    { unfold line_value, PyList.index. rewrite Hnot, Hneg.
      destruct (Z.of_nat (List.length (fields ln)) + c <? 0)%Z eqn:Hj;
        [reflexivity|apply Z.ltb_ge in Hj; lia]. }
    split; [exact Hl|]. intros data_lines Hin.
    destruct (values_loop_fails c data_lines (Ok []) ln Hin Hl) as [e He].
    unfold collect_values. rewrite He. f_equal.
    destruct (values_loop_error _ _ _ _ He) as [H|H]; [discriminate|exact H].
Qed.

Lemma negative_column_index_witness :
  (-2 < 0)%Z
  /\ line_value (-2) "+1.0E+01,+3.0E+03,+1" = Ok (Some (Finite 3000))
  /\ collect_values (-2) ["+1.0E+01,+3.0E+03,+1"; "+2.0E+01"]
     = Err index_out_of_range.
Proof.
  assert (H1 : (-2 < 0)%Z) by lia.
  split; [assumption|]. split.
  - destruct (proj1 (negative_column_index (-2) "+1.0E+01,+3.0E+03,+1" H1))
      as [valstr [Hn Hv]]; [vm_compute; discriminate|].
    rewrite Hv. vm_compute in Hn. inversion Hn. vm_compute. reflexivity.
  - apply (proj2 (negative_column_index (-2) "+2.0E+01" H1));
      [vm_compute; reflexivity|]. right. left. reflexivity.
Defined.




Lemma filter_nothing {A : Type} (f : A -> bool) (l : list A) :
  (forall x, In x l -> f x = false) -> filter f l = [].
Proof.
  induction l as [|x l IH]; intros H; [reflexivity|].
  simpl. rewrite (H x (or_introl eq_refl)). apply IH.
  intros y Hy. apply H. now right.
Qed.

(** X6: without a header only the lines that start with a plus count: a file
    that has no header in its first forty lines and no line starting with
    a plus fails for lack of data lines, whatever else its rows hold. *)
Theorem headerless_needs_plus (fs : filesystem) (p : Path) (num_freq : Z)
  (trim_first_n : option Z) (col_name : string) (fallback_col_index : Z)
  (scale : pyfloat) (text : string) :
  fs (path_text p) = Some text ->
  find_header col_name (read_lines text) = None ->
  (forall ln, In ln (read_lines text) ->
              first_non_whitespace ln <> Some "+"%char) ->
  read_lcr_csv_lcr6300 fs p num_freq trim_first_n col_name
                       fallback_col_index scale
  = Err (no_data_lines p).
Proof.
  intros Hfs Hh Hno. unfold read_lcr_csv_lcr6300. rewrite Hfs.
  rewrite parse_lines_stages, Hh, collect_data_lines_filter.
  rewrite filter_nothing; [reflexivity|].
  intros ln Hin. rewrite accepted_without_header_spec.
  unfold candidate_without_header.
  pose proof (Hno ln Hin) as Hln.
  destruct (first_non_whitespace ln) as [c|]; [|reflexivity].
  apply Ascii.eqb_neq. congruence.
Qed.

Lemma headerless_needs_plus_witness :
  (fun k => if String.eqb k "d/x.csv"
            then Some ("1.0,2.0,3.0" ++ String LF "-4.0,5.0,6.0")%string
            else None) (path_text (MkPath "d/x.csv" "x.csv"))
  = Some ("1.0,2.0,3.0" ++ String LF "-4.0,5.0,6.0")%string
  /\ read_lcr_csv_lcr6300
       (fun k => if String.eqb k "d/x.csv"
                 then Some ("1.0,2.0,3.0" ++ String LF "-4.0,5.0,6.0")%string
                 else None)
       (MkPath "d/x.csv" "x.csv") 1 None "Z(OHM)" 2 (Finite 1)
     = Err (no_data_lines (MkPath "d/x.csv" "x.csv")).
Proof.
  split; [reflexivity|].
  apply (headerless_needs_plus _ (MkPath "d/x.csv" "x.csv") 1 None "Z(OHM)" 2
           (Finite 1) ("1.0,2.0,3.0" ++ String LF "-4.0,5.0,6.0")%string).
  - reflexivity.
  - reflexivity.
  - intros ln [<-|[<-|[]]]; vm_compute; discriminate.
Defined.

(** X7: when the header names the column, the index read is a position of the
    header, whatever the fallback index is, so that a data line with as
    many fields as the header is never skipped for being short. *)
Theorem header_column_in_range (col_name : string) (fallback_col_index : Z)
  (lines : list string) (h : nat) (hdr : string) :
  nth_error lines h = Some hdr ->
  In col_name (fields hdr) ->
  let c := choose_column col_name fallback_col_index (Some h) lines in
  (0 <= c < Z.of_nat (List.length (fields hdr)))%Z
  /\ nth_error (fields hdr) (Z.to_nat c) = Some col_name
  /\ forall ln,
       List.length (fields hdr) <= List.length (fields ln) ->
       exists valstr,
         nth_error (fields ln) (Z.to_nat c) = Some valstr
         /\ line_value c ln = Ok (parse_value valstr).
Proof.
  intros Hn Hin c.
  assert (Hc : exists i, c = Z.of_nat i /\ first_position col_name (fields hdr) i).
  { unfold c, choose_column. rewrite (nth_error_nth _ _ EmptyString Hn).
    rewrite (proj2 (mem_spec _ _) Hin).
    destruct (PyList.index_of String.eqb col_name (fields hdr)) as [i|] eqn:Hi.
    - exists i. split; [reflexivity|now apply index_of_spec].
    - exfalso. apply In_nth_error in Hin. destruct Hin as [n Hnth].
      clear c. revert n Hnth Hi.
      induction (fields hdr) as [|y l IH]; intros n Hnth Hi;
        [destruct n; discriminate|].
      simpl in Hi. destruct (String.eqb col_name y) eqn:Hxy; [discriminate|].
      destruct n as [|n]; simpl in Hnth.
      + inversion Hnth; subst. rewrite String.eqb_refl in Hxy. discriminate.
      + destruct (PyList.index_of String.eqb col_name l); [discriminate|].
        now apply (IH n). }
  destruct Hc as [i [Hci [Hnth _]]].
  assert (Hlt : i < List.length (fields hdr))
    by (apply nth_error_Some; congruence).
  rewrite Hci, Nat2Z.id. split; [lia|]. split; [exact Hnth|].
  intros ln Hlen.
  destruct (line_value_long (Z.of_nat i) ln) as [valstr [H1 H2]]; try lia.
  rewrite Nat2Z.id in H1. now exists valstr.
Qed.

Lemma header_column_in_range_witness :
  nth_error ["F(HZ),R,X,Z(OHM)"; "+1,+2,+3,+4"] 0 = Some "F(HZ),R,X,Z(OHM)"
  /\ In "Z(OHM)" (fields "F(HZ),R,X,Z(OHM)")
  /\ (0 <= choose_column "Z(OHM)" 2 (Some 0%nat)
                         ["F(HZ),R,X,Z(OHM)"; "+1,+2,+3,+4"]
      < Z.of_nat (List.length (fields "F(HZ),R,X,Z(OHM)")))%Z.
Proof.
  assert (H1 : nth_error ["F(HZ),R,X,Z(OHM)"; "+1,+2,+3,+4"] 0
               = Some "F(HZ),R,X,Z(OHM)") by reflexivity.
  assert (H2 : In "Z(OHM)" (fields "F(HZ),R,X,Z(OHM)"))
    by (vm_compute; tauto).
  repeat (split; [assumption|]).
  exact (proj1 (header_column_in_range "Z(OHM)" 2
                  ["F(HZ),R,X,Z(OHM)"; "+1,+2,+3,+4"] 0 "F(HZ),R,X,Z(OHM)"
                  H1 H2)).
Defined.

Lemma split_length (sep : ascii) (s : string) :
  List.length (PyStr.split sep s) = S (count_char sep s).
Proof.
  induction s as [|c s IH]; [reflexivity|].
  cbn [PyStr.split count_char]. destruct (Ascii.eqb c sep).
  - simpl. now rewrite IH.
  - destruct (PyStr.split sep s); simpl in *; [discriminate|exact IH].
Qed.

(** X8: a line has one field more than it has commas, so that for a column
    index [c >= 0] a line with fewer than [c] commas is skipped, and a line
    with [c] commas or more gives its field at index [c] to the parser. *)
Theorem fields_follow_commas (c : Z) (ln : string) :
  (0 <= c)%Z ->
  List.length (fields ln) = S (count_char ","%char ln)
  /\ ((Z.of_nat (count_char ","%char ln) < c)%Z ->
      line_value c ln = Ok None)
  /\ ((c <= Z.of_nat (count_char ","%char ln))%Z ->
      exists valstr,
        nth_error (fields ln) (Z.to_nat c) = Some valstr
        /\ line_value c ln = Ok (parse_value valstr)).
Proof.
  intros Hc.
  assert (Hlen : List.length (fields ln) = S (count_char ","%char ln))
    by (unfold fields; rewrite length_map; apply split_length).
  split; [exact Hlen|]. split.
  - intros H. apply line_value_short. lia.
  - intros H. apply line_value_long; lia.
Qed.

Lemma fields_follow_commas_witness :
  (0 <= 2)%Z
  /\ line_value 2 "+1.0E+01,+2.0E+00" = Ok None.
Proof.
  assert (H1 : (0 <= 2)%Z) by lia.
  split; [assumption|].
  apply (proj1 (proj2 (fields_follow_commas 2 "+1.0E+01,+2.0E+00" H1))).
  vm_compute. reflexivity.
Defined.

(** ** One sweep *)

Lemma Qred_inject_Z (z : Z) : Qred (inject_Z z) = inject_Z z.
Proof.
  unfold Qred, inject_Z.
  pose proof (Z.ggcd_gcd z 1) as Hg.
  pose proof (Z.ggcd_correct_divisors z 1) as Hd.
  destruct (Z.ggcd z 1) as [g [aa bb]]. simpl in *.
  rewrite Z.gcd_1_r in Hg. subst g. destruct Hd as [Ha Hb].
  rewrite Z.mul_1_l in Ha, Hb. subst aa bb. reflexivity.
Qed.

Lemma Qred_idempotent (q : Q) : Qred (Qred q) = Qred q.
Proof. apply Qred_complete, Qred_correct. Qed.

Lemma scale10_canonical (m e : Z) : Qred (scale10 m e) = scale10 m e.
Proof.
  unfold scale10. destruct (0 <=? e)%Z;
    [apply Qred_inject_Z|apply Qred_idempotent].
Qed.

Lemma parse_decimal_canonical (s : string) (q : Q) :
  parse_decimal s = Some q -> Qred q = q.
Proof.
  unfold parse_decimal. destruct (span_digits s) as [ip r1].
  destruct (match r1 with
            | String "."%char r => span_digits r
            | _ => (EmptyString, r1)
            end) as [fp r2].
  destruct (ip ++ fp)%string; [discriminate|].
  destruct (parse_exponent r2); [|discriminate].
  intros H. inversion H. apply scale10_canonical.
Qed.

Lemma py_float_canonical (s : string) (v : pyfloat) :
  py_float s = Some v -> canonical v.
Proof.
  unfold py_float. destruct (without_underscores s); [|discriminate].
  destruct (split_sign _) as [neg body].
  destruct (parse_decimal body) as [q|] eqn:Hq.
  - destruct neg; intros H; injection H as <-; cbn [canonical].
    + exact (Qred_idempotent (Qopp q)).
    + exact (parse_decimal_canonical _ _ Hq).
  - unfold parse_inf_or_nan.
    destruct (_ || _); [intros H; inversion H; exact I|].
    destruct (String.eqb _ _); [intros H; inversion H; exact I|discriminate].
Qed.

Lemma parse_value_canonical (s : string) (v : pyfloat) :
  parse_value s = Some v -> canonical v.
Proof.
  unfold parse_value. destruct (py_float s) eqn:H1.
  - intros H. inversion H; subst. exact (py_float_canonical _ _ H1).
  - apply py_float_canonical.
Qed.

Lemma line_value_canonical (c : Z) (ln : string) (v : pyfloat) :
  line_value c ln = Ok (Some v) -> canonical v.
Proof.
  unfold line_value. destruct (_ <=? c)%Z; [discriminate|].
  destruct (PyList.index (fields ln) c); cbn [bind]; [|discriminate].
  intros H. inversion H as [H']. exact (parse_value_canonical _ _ H').
Qed.

Lemma values_loop_canonical (c : Z) (data_lines : list string)
  (acc values : list pyfloat) :
  Forall canonical acc ->
  fold_left (values_step c) data_lines (Ok acc) = Ok values ->
  Forall canonical values.
Proof.
  revert acc; induction data_lines as [|ln dl IH]; intros acc Hacc;
    cbn [fold_left].
  - intros H. inversion H; subst. exact Hacc.
  - unfold values_step at 2. cbn [bind].
    destruct (line_value c ln) as [[v|]|e] eqn:Hl; cbn [bind].
    + apply IH. apply Forall_app. split; [exact Hacc|].
      constructor; [exact (line_value_canonical _ _ _ Hl)|constructor].
    + now apply IH.
    + rewrite values_loop_error_sticky. discriminate.
Qed.

Lemma extracted_values_canonical (col_name : string) (fallback_col_index : Z)
  (lines : list string) (values : list pyfloat) :
  extracted_values col_name fallback_col_index lines = Ok values ->
  Forall canonical values.
Proof.
  unfold extracted_values, collect_values.
  apply values_loop_canonical. constructor.
Qed.

Lemma mean_of_one (x : pyfloat) : canonical x -> Np.mean [x] = x.
Proof.
  unfold Np.mean, Np.sum.
  destruct x as [q| |]; cbn [fold_left padd pdiv_count List.length canonical];
    intros H; try reflexivity.
  f_equal. rewrite <- H at 2. apply Qred_complete.
  rewrite Qred_correct. change (inject_Z (Z.of_nat 1)) with 1%Q. field.
Qed.

(** X9: a file with exactly one sweep is returned as it is read: when the
    values are as many as [num_freq], the result is the values in file
    order, each times [scale]. *)
Theorem single_sweep (p : Path) (num_freq : Z) (trim_first_n : option Z)
  (col_name : string) (fallback_col_index : Z) (scale : pyfloat)
  (lines : list string) (values : list pyfloat) :
  (0 < num_freq)%Z ->
  extracted_values col_name fallback_col_index lines = Ok values ->
  Z.of_nat (List.length values) = num_freq ->
  parse_lines p num_freq trim_first_n col_name fallback_col_index scale lines
  = Ok (map (fun v => pmul v scale) values).
Proof.
  intros Hpos Hv Hlen.
  assert (Hne : values <> []) by (intros ->; simpl in Hlen; lia).
  pose proof (extracted_values_canonical _ _ _ _ Hv) as Hcan.
  rewrite (parse_lines_of_values _ _ _ _ _ _ _ _ Hv Hne).
  rewrite reshape_and_average_pos by exact Hpos.
  replace (_ <? num_freq)%Z with false by (symmetry; apply Z.ltb_ge; lia).
  rewrite Hlen, Z.div_same by lia. f_equal.
  set (c := Z.to_nat num_freq).
  assert (Hc : List.length values = c) by (unfold c; lia).
  apply (nth_ext _ _ NaN NaN).
  - now rewrite block_means_length, length_map.
  - intros j Hj. rewrite block_means_length in Hj.
    change (Z.to_nat 1) with 1.
    rewrite block_means_nth by (try exact Hj; lia).
    change NaN with ((fun v => pmul v scale) NaN) at 2.
    rewrite map_nth. cbn [seq map]. f_equal.
    replace (0 * c + j) with j by lia.
    apply mean_of_one.
    rewrite Forall_forall in Hcan. apply Hcan, nth_In. lia.
Qed.

Lemma single_sweep_witness :
  (0 < 2)%Z
  /\ extracted_values "Z(OHM)" 2 ["F(HZ),Z(OHM)"; "+10,+1.5E+03"; "+20,-inf"]
     = Ok [Finite 1500; Inf true]
  /\ Z.of_nat (List.length [Finite 1500; Inf true]) = 2%Z
  /\ parse_lines Sample.path1 2 None "Z(OHM)" 2 Sample.kilo
                 ["F(HZ),Z(OHM)"; "+10,+1.5E+03"; "+20,-inf"]
     = Ok (map (fun v => pmul v Sample.kilo) [Finite 1500; Inf true]).
Proof.
  assert (H1 : (0 < 2)%Z) by lia.
  assert (H2 : extracted_values "Z(OHM)" 2
                 ["F(HZ),Z(OHM)"; "+10,+1.5E+03"; "+20,-inf"]
               = Ok [Finite 1500; Inf true]) by (vm_compute; reflexivity).
  assert (H3 : Z.of_nat (List.length [Finite 1500; Inf true]) = 2%Z)
    by reflexivity.
  repeat (split; [assumption|]).
  exact (single_sweep Sample.path1 2 None "Z(OHM)" 2 Sample.kilo
           ["F(HZ),Z(OHM)"; "+10,+1.5E+03"; "+20,-inf"]
           [Finite 1500; Inf true] H1 H2 H3).
Defined.

(** * Further properties of the batch and of the rest of the script *)

Lemma dict_get_set_same {V : Type} (k : string) (v : V) (d : dict V) :
  dict_get k (dict_set k v d) = Some v.
Proof.
  induction d as [|[k' v'] d IH]; simpl.
  - now rewrite String.eqb_refl.
  - destruct (String.eqb k k') eqn:Hk; simpl.
    + now rewrite String.eqb_refl.
    + now rewrite Hk.
Qed.

Lemma dict_get_set_other {V : Type} (k k' : string) (v : V) (d : dict V) :
  String.eqb k k' = false ->
  dict_get k (dict_set k' v d) = dict_get k d.
Proof.
  intros Hk. induction d as [|[k'' v''] d IH]; simpl.
  - now rewrite Hk.
  - destruct (String.eqb k' k'') eqn:Hk'; simpl.
    + apply String.eqb_eq in Hk'. subst k''. now rewrite Hk.
    + now rewrite IH.
Qed.

Lemma dict_set_fresh {V : Type} (k : string) (v : V) (d : dict V) :
  ~ In k (keys d) -> dict_set k v d = d ++ [(k, v)].
Proof.
  induction d as [|[k' v'] d IH]; intros Hk; [reflexivity|].
  simpl in *. destruct (String.eqb k k') eqn:He.
  - apply String.eqb_eq in He. subst. tauto.
  - rewrite IH by tauto. reflexivity.
Qed.

Lemma keys_dict_set {V : Type} (k : string) (v : V) (d : dict V) :
  keys (dict_set k v d)
  = if PyList.mem String.eqb k (keys d) then keys d else keys d ++ [k].
Proof.
  unfold PyList.mem, keys. induction d as [|[k' v'] d IH]; [reflexivity|].
  simpl. destruct (String.eqb k k') eqn:He; simpl.
  - apply String.eqb_eq in He. now subst.
  - rewrite IH.
    now destruct (existsb (String.eqb k) (map fst d)).
Qed.

Lemma keys_dict_set_nodup {V : Type} (k : string) (v : V) (d : dict V) :
  NoDup (keys d) -> NoDup (keys (dict_set k v d)).
Proof.
  intros H. rewrite keys_dict_set.
  destruct (PyList.mem String.eqb k (keys d)) eqn:Hm; [exact H|].
  apply NoDup_app; [exact H|repeat constructor; intros []|].
  intros x Hx [<-|[]].
  apply (proj2 (mem_spec _ _)) in Hx. congruence.
Qed.

Lemma fold_keep_get (fs : filesystem) (data_dir fn : string)
  (to_load : list string) (d : dict (list pyfloat)) :
  dict_get fn (fold_left (keep fs data_dir) to_load d)
  = if PyList.mem String.eqb fn to_load then
      match outcome fs data_dir fn with
      | Some avg => Some avg
      | None => dict_get fn d
      end
    else dict_get fn d.
Proof.
  unfold PyList.mem.
  revert d; induction to_load as [|x tl IH]; intros d; [reflexivity|].
  cbn [fold_left existsb]. rewrite IH.
  assert (Hx : dict_get fn (keep fs data_dir d x)
               = if String.eqb fn x then
                   match outcome fs data_dir fn with
                   | Some avg => Some avg
                   | None => dict_get fn d
                   end
                 else dict_get fn d).
  { unfold keep. destruct (String.eqb fn x) eqn:He.
    - apply String.eqb_eq in He. subst x.
      destruct (outcome fs data_dir fn); [apply dict_get_set_same|reflexivity].
    - destruct (outcome fs data_dir x); [|reflexivity].
      now apply dict_get_set_other. }
  rewrite Hx.
  destruct (String.eqb fn x), (existsb (String.eqb fn) tl),
    (outcome fs data_dir fn); reflexivity.
Qed.

Lemma fold_keep_nodup (fs : filesystem) (data_dir : string)
  (to_load : list string) (d : dict (list pyfloat)) :
  NoDup (keys d) -> NoDup (keys (fold_left (keep fs data_dir) to_load d)).
Proof.
  revert d; induction to_load as [|x tl IH]; intros d H; [exact H|].
  cbn [fold_left]. apply IH. unfold keep.
  destruct (outcome fs data_dir x); [now apply keys_dict_set_nodup|exact H].
Qed.

(** X13: after the loop, [loaded] holds under a name exactly the averages of
    that name's file, for the configured names whose file exists and is
    read; no key occurs twice. *)
Theorem loaded_lookup (fs : filesystem) (data_dir : string)
  (to_load : list string) (fn : string) (avg : list pyfloat) :
  (dict_get fn (loaded (load_loop fs data_dir to_load)) = Some avg
   <-> In fn to_load /\ outcome fs data_dir fn = Some avg)
  /\ NoDup (keys (loaded (load_loop fs data_dir to_load))).
Proof.
  unfold load_loop. rewrite load_fold_loaded. cbn [loaded]. split.
  - rewrite fold_keep_get. cbn [dict_get].
    destruct (PyList.mem String.eqb fn to_load) eqn:Hm.
    + apply mem_spec in Hm. destruct (outcome fs data_dir fn) as [a|].
      * split; [intros H; split; [exact Hm|exact H]|intros [_ H]; exact H].
      * split; [discriminate|intros [_ H]; discriminate].
    + split; [discriminate|]. intros [Hin _].
      apply (proj2 (mem_spec _ _)) in Hin. congruence.
  - apply fold_keep_nodup. constructor.
Qed.

Lemma fold_keep_fresh (fs : filesystem) (data_dir : string)
  (to_load : list string) (d : dict (list pyfloat)) :
  NoDup to_load ->
  (forall fn, In fn to_load -> ~ In fn (keys d)) ->
  fold_left (keep fs data_dir) to_load d
  = d ++ flat_map (entry fs data_dir) to_load.
Proof.
  revert d; induction to_load as [|x tl IH]; intros d Hnd Hfresh.
  - simpl. now rewrite app_nil_r.
  - inversion Hnd as [|? ? Hx Htl]; subst. cbn [fold_left flat_map].
    assert (Hkeep : keep fs data_dir d x = d ++ entry fs data_dir x).
    { unfold keep, entry. destruct (outcome fs data_dir x).
      - apply dict_set_fresh. apply Hfresh. now left.
      - now rewrite app_nil_r. }
    rewrite Hkeep, IH; [now rewrite <- app_assoc|exact Htl|].
    intros fn Hin. unfold keys. rewrite map_app, in_app_iff.
    intros [H|H].
    + apply (Hfresh fn); [now right|exact H].
    + unfold entry in H. destruct (outcome fs data_dir x); simpl in H;
        [|contradiction].
      destruct H as [<-|[]]. contradiction.
Qed.

(** X14: with configured names that are all different, [loaded] lists the files
    that were read in the order of the configuration, so that the first of
    them is the baseline of the second figure. *)
Theorem loaded_in_order (fs : filesystem) (data_dir : string)
  (to_load : list string) :
  NoDup to_load ->
  loaded (load_loop fs data_dir to_load)
  = flat_map (entry fs data_dir) to_load.
Proof.
  intros Hnd. unfold load_loop. rewrite load_fold_loaded. cbn [loaded].
  rewrite fold_keep_fresh; [reflexivity|exact Hnd|].
  intros fn _ [].
Qed.

Lemma loaded_in_order_witness :
  NoDup ["LIST0003.CSV"; "LIST0001.CSV"; "LIST9999.CSV"]
  /\ loaded (load_loop Sample.files "data"
               ["LIST0003.CSV"; "LIST0001.CSV"; "LIST9999.CSV"])
     = flat_map (entry Sample.files "data")
                ["LIST0003.CSV"; "LIST0001.CSV"; "LIST9999.CSV"].
Proof.
  assert (H : NoDup ["LIST0003.CSV"; "LIST0001.CSV"; "LIST9999.CSV"]).
  { repeat constructor; simpl; intuition discriminate. }
  split; [exact H|].
  exact (loaded_in_order Sample.files "data"
           ["LIST0003.CSV"; "LIST0001.CSV"; "LIST9999.CSV"] H).
Defined.

Lemma load_step_status (fs : filesystem) (data_dir : string) (st : state)
  (fn : string) :
  printed (load_step fs data_dir st fn)
  = printed st ++ [status_line fs data_dir fn].
Proof.
  unfold load_step, status_line.
  destruct (path_exists fs (data_file data_dir fn)); simpl; [|reflexivity].
  now destruct (read_lcr_csv_lcr6300 _ _ _ _ _ _ _).
Qed.

Lemma load_fold_status (fs : filesystem) (data_dir : string)
  (to_load : list string) (st : state) :
  printed (fold_left (load_step fs data_dir) to_load st)
  = printed st ++ map (status_line fs data_dir) to_load.
Proof.
  revert st; induction to_load as [|fn tl IH]; intros st; simpl.
  - now rewrite app_nil_r.
  - now rewrite IH, load_step_status, <- app_assoc.
Qed.

(** X15: the loop prints one line for each configured name, in order: that the
    file was not found, that it was loaded, or the message of the error
    that the reader raised; the batch adds one more line exactly when it
    falls back on the placeholder curves. *)
Theorem printed_report (fs : filesystem) (data_dir : string)
  (to_load : list string) :
  printed (load_loop fs data_dir to_load)
  = map (status_line fs data_dir) to_load
  /\ printed (load_all fs data_dir to_load)
     = map (status_line fs data_dir) to_load
       ++ match loaded (load_loop fs data_dir to_load) with
          | [] => [no_real_files]
          | _ :: _ => []
          end.
Proof.
  assert (H : printed (load_loop fs data_dir to_load)
              = map (status_line fs data_dir) to_load)
    by (unfold load_loop; now rewrite load_fold_status).
  split; [exact H|]. unfold load_all.
  destruct (loaded (load_loop fs data_dir to_load)); cbn [printed].
  - now rewrite H.
  - now rewrite H, app_nil_r.
Qed.

Lemma read_length_ten (fs : filesystem) (p : Path) (trim_first_n : option Z)
  (col_name : string) (fallback_col_index : Z) (scale : pyfloat)
  (avg : list pyfloat) :
  read_lcr_csv_lcr6300 fs p 10 trim_first_n col_name fallback_col_index scale
  = Ok avg ->
  List.length avg = 10.
Proof.
  unfold read_lcr_csv_lcr6300.
  destruct (fs (path_text p)); [|discriminate].
  intros H. apply parse_lines_ok_values in H.
  destruct H as [values [_ [_ H]]].
  apply reshape_and_average_length in H. lia.
Qed.

Lemma outcome_length (fs : filesystem) (data_dir fn : string)
  (avg : list pyfloat) :
  outcome fs data_dir fn = Some avg -> List.length avg = 10.
Proof.
  unfold outcome. destruct (path_exists _ _); [|discriminate].
  destruct (read_lcr_csv_lcr6300 _ _ _ _ _ _ _) eqn:Hr; [|discriminate].
  intros H. inversion H; subst. exact (read_length_ten _ _ _ _ _ _ _ Hr).
Qed.

Lemma dict_set_forall {V : Type} (P : string * V -> Prop) (k : string)
  (v : V) (d : dict V) :
  P (k, v) -> Forall P d -> Forall P (dict_set k v d).
Proof.
  intros Hkv. induction d as [|[k' v'] d IH]; intros Hd; simpl.
  - now constructor.
  - inversion Hd; subst. destruct (String.eqb k k'); constructor; auto.
Qed.

Lemma fold_keep_forall (fs : filesystem) (data_dir : string)
  (to_load : list string) (d : dict (list pyfloat)) :
  Forall (fun kv => List.length (snd kv) = 10) d ->
  Forall (fun kv => List.length (snd kv) = 10)
         (fold_left (keep fs data_dir) to_load d).
Proof.
  revert d; induction to_load as [|x tl IH]; intros d H; [exact H|].
  cbn [fold_left]. apply IH. unfold keep.
  destruct (outcome fs data_dir x) eqn:Ho; [|exact H].
  apply dict_set_forall; [exact (outcome_length _ _ _ _ Ho)|exact H].
Qed.

Lemma load_all_fits (fs : filesystem) (data_dir : string)
  (to_load : list string) :
  loaded (load_all fs data_dir to_load) <> []
  /\ Forall (fun kv => List.length (snd kv) = 10)
            (loaded (load_all fs data_dir to_load)).
Proof.
  assert (H : Forall (fun kv : string * list pyfloat =>
                        List.length (snd kv) = 10)
                     (loaded (load_loop fs data_dir to_load))).
  { unfold load_loop. rewrite load_fold_loaded. apply fold_keep_forall.
    constructor. }
  unfold load_all.
  destruct (loaded (load_loop fs data_dir to_load)) eqn:Hl; cbn [loaded].
  - split; [discriminate|]. repeat constructor.
  - rewrite Hl. split; [discriminate|exact H].
Qed.

(** X16: whatever the files are, the batch ends with at least one entry in
    [loaded], and every vector of [loaded] has as many entries as [freq],
    that is ten. *)
Theorem loaded_vectors_fit (fs : filesystem) (data_dir : string)
  (to_load : list string) :
  loaded (load_all fs data_dir to_load) <> []
  /\ List.length freq = 10
  /\ forall k v,
       In (k, v) (loaded (load_all fs data_dir to_load)) ->
       List.length v = List.length freq.
Proof.
  destruct (load_all_fits fs data_dir to_load) as [Hne Hall].
  split; [exact Hne|]. split; [reflexivity|].
  intros k v Hin. rewrite Forall_forall in Hall.
  exact (Hall (k, v) Hin).
Qed.

Lemma processed_tables_fit (d : dict (list pyfloat)) :
  Forall (fun kv => List.length (snd kv) = 10) d ->
  processed_tables d = Done (map table_of d).
Proof.
  induction d as [|[k v] d IH]; intros H; [reflexivity|].
  inversion H as [|? ? Hv Hd]; subst. simpl in Hv.
  cbn [processed_tables map]. unfold data_frame.
  replace (List.length freq =? List.length v) with true
    by (rewrite Hv; reflexivity).
  now rewrite (IH Hd).
Qed.

(** X17: the loop that builds the processed tables never fails after the batch:
    every entry gets its table, of ten rows, row [i] holding frequency
    [10 * (i + 1)] beside entry [i] of the vector. *)
Theorem tables_never_fail (fs : filesystem) (data_dir : string)
  (to_load : list string) :
  processed_tables (loaded (load_all fs data_dir to_load))
  = Done (map table_of (loaded (load_all fs data_dir to_load)))
  /\ forall k v,
       In (k, v) (loaded (load_all fs data_dir to_load)) ->
       List.length (snd (table_of (k, v))) = 10
       /\ forall i, i < 10 ->
            nth_error (snd (table_of (k, v))) i
            = Some ((10 * (Z.of_nat i + 1))%Z, nth i v NaN).
Proof.
  destruct (load_all_fits fs data_dir to_load) as [_ Hall].
  split; [now apply processed_tables_fit|].
  intros k v Hin. rewrite Forall_forall in Hall.
  pose proof (Hall (k, v) Hin) as Hv. simpl in Hv.
  unfold table_of. cbn [snd fst]. split.
  - rewrite length_combine, Hv. reflexivity.
  - intros i Hi.
    do 10 (destruct v as [|? v]; [discriminate|]).
    destruct v; [|discriminate].
    do 10 (destruct i as [|i]; [reflexivity|]). lia.
Qed.

Lemma set_add_mem (k k' : string) (s : list string) :
  PyList.mem String.eqb k (set_add k' s)
  = String.eqb k k' || PyList.mem String.eqb k s.
Proof.
  unfold set_add. destruct (PyList.mem String.eqb k' s) eqn:Hm.
  - destruct (String.eqb k k') eqn:He; [|reflexivity].
    apply String.eqb_eq in He. subst. now rewrite Hm.
  - unfold PyList.mem. rewrite existsb_app. simpl.
    rewrite orb_false_r. apply orb_comm.
Qed.

Lemma plot_fits (sty k : string) (v : list pyfloat) :
  List.length v = 10 -> plot sty k v = Ok (Plot sty k v).
Proof. intros H. unfold plot. now rewrite H. Qed.

Lemma hydro_loop (d : dict (list pyfloat)) (calls : list plot_call)
  (plotted : list string) :
  Forall (fun kv => List.length (snd kv) = 10) d ->
  exists plotted',
    fold_left hydro_step d (Done (calls, plotted))
    = Done (calls ++ map hydro_call (filter (fun kv => is_hydro (fst kv)) d),
            plotted')
    /\ forall k,
         PyList.mem String.eqb k plotted'
         = PyList.mem String.eqb k plotted
           || (is_hydro k && PyList.mem String.eqb k (keys d)).
Proof.
  revert calls plotted; induction d as [|[k0 v0] d IH];
    intros calls plotted Hd.
  - exists plotted. simpl. split; [now rewrite app_nil_r|].
    intros k. now rewrite andb_false_r, orb_false_r.
  - inversion Hd as [|? ? Hv Hd']; subst. simpl in Hv.
    cbn [fold_left hydro_step filter fst snd].
    destruct (is_hydro k0) eqn:Hh.
    + rewrite (plot_fits _ _ _ Hv).
      destruct (IH (calls ++ [Plot "-o" k0 v0]) (set_add k0 plotted) Hd')
        as [plotted' [H1 H2]].
      exists plotted'. split.
      * rewrite H1, <- app_assoc. reflexivity.
      * intros k. rewrite H2, set_add_mem. unfold keys, PyList.mem.
        cbn [map existsb fst].
        destruct (String.eqb k k0) eqn:He;
          [apply String.eqb_eq in He; subst k; rewrite Hh|];
          destruct (existsb _ plotted), (existsb _ (map fst d));
          try destruct (is_hydro k); reflexivity.
    + destruct (IH calls plotted Hd') as [plotted' [H1 H2]].
      exists plotted'. split; [exact H1|].
      intros k. rewrite H2. unfold keys, PyList.mem. cbn [map existsb fst].
      destruct (String.eqb k k0) eqn:He; [|reflexivity].
      apply String.eqb_eq in He. subst k. rewrite Hh. reflexivity.
Qed.

Lemma other_loop (plotted : list string) (d : dict (list pyfloat))
  (calls : list plot_call) :
  Forall (fun kv => List.length (snd kv) = 10) d ->
  fold_left (other_step plotted) d (Done calls)
  = Done (calls ++ map other_call
                     (filter (fun kv => negb (PyList.mem String.eqb (fst kv)
                                                         plotted)) d)).
Proof.
  revert calls; induction d as [|[k v] d IH]; intros calls Hd.
  - simpl. now rewrite app_nil_r.
  - inversion Hd as [|? ? Hv Hd']; subst. simpl in Hv.
    cbn [fold_left other_step filter fst snd].
    destruct (PyList.mem String.eqb k plotted); cbn [negb].
    + now apply IH.
    + rewrite (plot_fits _ _ _ Hv), (IH _ Hd'), <- app_assoc. reflexivity.
Qed.

Lemma partition_permutation {A : Type} (f : A -> bool) (l : list A) :
  Permutation (filter f l ++ filter (fun x => negb (f x)) l) l.
Proof.
  induction l as [|a l IH]; [constructor|].
  simpl. destruct (f a); simpl.
  - now constructor.
  - apply Permutation_sym, Permutation_cons_app, Permutation_sym, IH.
Qed.

Lemma first_figure_fit (d : dict (list pyfloat)) :
  Forall (fun kv => List.length (snd kv) = 10) d ->
  first_figure d
  = Done (map hydro_call (filter (fun kv => is_hydro (fst kv)) d)
          ++ map other_call
                 (filter (fun kv => negb (is_hydro (fst kv))) d)).
Proof.
  intros Hd. unfold first_figure.
  destruct (hydro_loop d [] [] Hd) as [plotted [H1 H2]].
  rewrite H1, (other_loop _ _ _ Hd). cbn [app]. do 3 f_equal.
  apply filter_ext_in. intros [k v] Hin. cbn [fst]. f_equal.
  rewrite H2. cbn [PyList.mem existsb orb].
  assert (Hk : PyList.mem String.eqb k (keys d) = true).
  { apply mem_spec. unfold keys. apply in_map_iff. now exists (k, v). }
  now rewrite Hk, andb_true_r.
Qed.

(** X18: after the batch the first figure never fails and draws every entry of
    [loaded] exactly once: first the entries whose name contains [hydro]
    in any case, in the order of [loaded], then all the others, in that
    order too. *)
Theorem first_figure_order (fs : filesystem) (data_dir : string)
  (to_load : list string) :
  exists calls,
    first_figure (loaded (load_all fs data_dir to_load)) = Done calls
    /\ calls
       = map hydro_call
             (filter (fun kv => is_hydro (fst kv))
                     (loaded (load_all fs data_dir to_load)))
         ++ map other_call
                (filter (fun kv => negb (is_hydro (fst kv)))
                        (loaded (load_all fs data_dir to_load)))
    /\ Permutation (map label calls)
                   (keys (loaded (load_all fs data_dir to_load))).
Proof.
  destruct (load_all_fits fs data_dir to_load) as [_ Hall].
  eexists. split; [now apply first_figure_fit|]. split; [reflexivity|].
  rewrite map_app, !map_map. unfold keys.
  change (fun x => label (hydro_call x))
    with (@fst string (list pyfloat)).
  change (fun x => label (other_call x))
    with (@fst string (list pyfloat)).
  rewrite <- map_app. apply Permutation_map.
  apply (partition_permutation (fun kv => is_hydro (fst kv))).
Qed.

Lemma divide_same_length (v w : list pyfloat) :
  List.length v = List.length w ->
  divide v w = Ok (map (fun xy => pdiv (fst xy) (snd xy)) (combine v w)).
Proof.
  intros H. unfold divide. now rewrite H, Nat.eqb_refl.
Qed.

Lemma normalised_calls_fit (baseline : list pyfloat)
  (d : dict (list pyfloat)) :
  List.length baseline = 10 ->
  Forall (fun kv => List.length (snd kv) = 10) d ->
  normalised_calls baseline d = Done (map (normalised_call baseline) d).
Proof.
  intros Hb. induction d as [|[k v] d IH]; intros H; [reflexivity|].
  inversion H as [|? ? Hv Hd]; subst. simpl in Hv.
  cbn [normalised_calls map].
  rewrite divide_same_length by congruence.
  rewrite plot_fits by (rewrite length_map, length_combine, Hv, Hb;
                        reflexivity).
  now rewrite (IH Hd).
Qed.

(** X19: the second figure never fails after the batch: [loaded] has a first
    key, which is the baseline, every vector has the length of the
    baseline, and each entry is drawn once, in order, as its ten values
    divided by those of the baseline. *)
Theorem second_figure_never_fails (fs : filesystem) (data_dir : string)
  (to_load : list string) :
  exists baseline_key baseline rest,
    loaded (load_all fs data_dir to_load) = (baseline_key, baseline) :: rest
    /\ second_figure (loaded (load_all fs data_dir to_load))
       = Done (map (normalised_call baseline)
                   (loaded (load_all fs data_dir to_load)))
    /\ forall kv,
         In kv (loaded (load_all fs data_dir to_load)) ->
         List.length (ydata (normalised_call baseline kv)) = 10.
Proof.
  destruct (load_all_fits fs data_dir to_load) as [Hne Hall].
  destruct (loaded (load_all fs data_dir to_load)) as [|[k b] rest] eqn:Hl;
    [congruence|].
  exists k, b, rest. split; [reflexivity|].
  assert (Hb : List.length b = 10) by (inversion Hall; assumption).
  split.
  - unfold second_figure. cbn [first_key dict_get].
    rewrite String.eqb_refl. now apply normalised_calls_fit.
  - intros kv Hin. rewrite Forall_forall in Hall.
    pose proof (Hall kv Hin) as Hv.
    unfold normalised_call. cbn [ydata].
    rewrite length_map, length_combine, Hv, Hb. reflexivity.
Qed.

Lemma pdiv_self (x : pyfloat) : finite_nonzero x -> pdiv x x = Finite 1.
Proof.
  destruct x as [q| |]; cbn [finite_nonzero pdiv]; try contradiction.
  intros H. rewrite H.
  f_equal. change 1%Q with (Qred 1). apply Qred_complete.
  apply Qmult_inv_r. unfold q_is_zero in H. apply Z.eqb_neq in H.
  unfold Qeq. simpl. lia.
Qed.

Lemma map_pdiv_self (l : list pyfloat) :
  Forall finite_nonzero l ->
  map (fun xy => pdiv (fst xy) (snd xy)) (combine l l)
  = repeat (Finite 1) (List.length l).
Proof.
  induction 1 as [|x l Hx Hl IH]; [reflexivity|].
  simpl. f_equal; [now apply pdiv_self|exact IH].
Qed.

(** X20: in the second figure the baseline is the first entry of [loaded], and
    its own curve is a line of ones wherever its values are numbers other
    than zero. *)
Theorem baseline_is_one (d rest : dict (list pyfloat)) (k : string)
  (baseline : list pyfloat) (calls : list plot_call) :
  d = (k, baseline) :: rest ->
  Forall finite_nonzero baseline ->
  second_figure d = Done calls ->
  exists others,
    calls = Plot "o" k (repeat (Finite 1) (List.length baseline)) :: others.
Proof.
  intros -> Hb. unfold second_figure. cbn [first_key dict_get].
  rewrite String.eqb_refl. cbn [normalised_calls].
  rewrite divide_same_length by reflexivity.
  unfold plot. destruct (_ =? _); [|discriminate].
  destruct (normalised_calls baseline rest) as [others|f]; [|discriminate].
  intros H. inversion H. exists others. now rewrite map_pdiv_self.
Qed.

Lemma baseline_is_one_witness :
  Forall finite_nonzero (map Finite [1; 2; 3; 4; 5; 6; 7; 8; 9; - 10]%Q)
  /\ second_figure
       [("a", map Finite [1; 2; 3; 4; 5; 6; 7; 8; 9; - 10]%Q);
        ("b", map Finite [2; 2; 3; 4; 5; 6; 7; 8; 9; 10]%Q)]
     = Done [Plot "o" "a" (repeat (Finite 1) 10);
             Plot "o" "b" (map Finite [2; 1; 1; 1; 1; 1; 1; 1; 1; - 1]%Q)]
  /\ exists others,
       [Plot "o" "a" (repeat (Finite 1) 10);
        Plot "o" "b" (map Finite [2; 1; 1; 1; 1; 1; 1; 1; 1; - 1]%Q)]
       = Plot "o" "a"
              (repeat (Finite 1)
                 (List.length
                    (map Finite [1; 2; 3; 4; 5; 6; 7; 8; 9; - 10]%Q)))
         :: others.
Proof.
  assert (H1 : Forall finite_nonzero
                 (map Finite [1; 2; 3; 4; 5; 6; 7; 8; 9; - 10]%Q))
    by (repeat constructor).
  assert (H2 : second_figure
       [("a", map Finite [1; 2; 3; 4; 5; 6; 7; 8; 9; - 10]%Q);
        ("b", map Finite [2; 2; 3; 4; 5; 6; 7; 8; 9; 10]%Q)]
     = Done [Plot "o" "a" (repeat (Finite 1) 10);
             Plot "o" "b" (map Finite [2; 1; 1; 1; 1; 1; 1; 1; 1; - 1]%Q)])
    by (vm_compute; reflexivity).
  repeat (split; [assumption|]).
  exact (baseline_is_one _
           [("b", map Finite [2; 2; 3; 4; 5; 6; 7; 8; 9; 10]%Q)] "a"
           (map Finite [1; 2; 3; 4; 5; 6; 7; 8; 9; - 10]%Q) _ eq_refl H1 H2).
Defined.

(** * Further properties of the text layer *)

Lemma universal_newlines_no_cr (s : string) :
  count_char CR (universal_newlines s) = 0
  /\ match s with
     | EmptyString => True
     | String _ s' => count_char CR (universal_newlines s') = 0
     end.
Proof.
  induction s as [|c s [IH1 IH2]]; [split; [reflexivity|exact I]|].
  split; [|exact IH1].
  cbn [universal_newlines]. destruct (Ascii.eqb c CR) eqn:Hc.
  - destruct s as [|d s'']; [reflexivity|].
    destruct (Ascii.eqb d LF); cbn [count_char];
      change (Ascii.eqb LF CR) with false; simpl; assumption.
  - cbn [count_char]. rewrite Hc. exact IH1.
Qed.

Lemma iter_lines_no_cr (s : string) :
  count_char CR s = 0 ->
  Forall (fun l => count_char CR l = 0) (iter_lines s).
Proof.
  induction s as [|c s IH]; [constructor|].
  cbn [count_char iter_lines]. intros H.
  assert (Hc : Ascii.eqb c CR = false)
    by (destruct (Ascii.eqb c CR); [discriminate|reflexivity]).
  rewrite Hc in H. simpl in H. specialize (IH H).
  destruct (Ascii.eqb c LF).
  - constructor; [|exact IH]. cbn [count_char]. now rewrite Hc.
  - destruct (iter_lines s) as [|h t].
    + constructor; [|constructor]. cbn [count_char]. now rewrite Hc.
    + inversion IH; subst. constructor; [|assumption].
      cbn [count_char]. rewrite Hc. assumption.
Qed.

Lemma rstrip_by_count (p : ascii -> bool) (ch : ascii) (s : string) :
  count_char ch (PyStr.rstrip_by p s) <= count_char ch s.
Proof.
  induction s as [|c s IH]; [reflexivity|].
  cbn [PyStr.rstrip_by count_char].
  destruct (PyStr.rstrip_by p s) as [|d r].
  - destruct (p c); cbn [count_char]; lia.
  - cbn [count_char] in *. lia.
Qed.

Lemma iter_lines_stripped (s : string) :
  Forall (fun l => count_char LF (PyStr.rstrip_char LF l) = 0) (iter_lines s).
Proof.
  unfold PyStr.rstrip_char.
  induction s as [|c s IH]; [constructor|].
  cbn [iter_lines]. destruct (Ascii.eqb c LF) eqn:Hc.
  - constructor; [|exact IH]. cbn [PyStr.rstrip_by].
    rewrite Ascii.eqb_sym, Hc. reflexivity.
  - assert (Hone : forall h,
               count_char LF (PyStr.rstrip_by (Ascii.eqb LF) h) = 0 ->
               count_char LF (PyStr.rstrip_by (Ascii.eqb LF) (String c h))
               = 0).
    { intros h Hh. cbn [PyStr.rstrip_by].
      destruct (PyStr.rstrip_by (Ascii.eqb LF) h) as [|d r].
      - destruct (Ascii.eqb LF c); cbn [count_char]; [reflexivity|].
        now rewrite Hc.
      - cbn [count_char] in *. now rewrite Hc. }
    destruct (iter_lines s) as [|h t].
    + constructor; [|constructor]. now apply Hone.
    + inversion IH; subst. constructor; [now apply Hone|assumption].
Qed.

(** X12: no line that the reader works on holds a line feed or a carriage
    return: the file is read with universal newlines, cut at the line
    feeds, and each line loses its line feed. *)
Theorem read_lines_no_newline (text : string) :
  Forall (fun ln => count_char LF ln = 0 /\ count_char CR ln = 0)
         (read_lines text).
Proof.
  unfold read_lines. rewrite Forall_map.
  pose proof (iter_lines_stripped (universal_newlines text)) as H1.
  pose proof (iter_lines_no_cr _ (proj1 (universal_newlines_no_cr text)))
    as H2.
  rewrite Forall_forall in *. intros l Hl. split; [now apply H1|].
  pose proof (rstrip_by_count (Ascii.eqb LF) CR l) as Hle.
  unfold PyStr.rstrip_char. specialize (H2 l Hl). lia.
Qed.

(** ** Tokens that the second attempt accepts *)

Lemma digit_facts (c : ascii) :
  PyStr.is_dec_digit c = true ->
  float_isspace c = false
  /\ is_underscore c = false
  /\ Ascii.eqb "_" c = false
  /\ Ascii.eqb c "+" = false
  /\ Ascii.eqb c "-" = false
  /\ to_lower c = c
  /\ Ascii.eqb c "i" = false
  /\ Ascii.eqb c "n" = false.
Proof.
  destruct c as [b0 b1 b2 b3 b4 b5 b6 b7].
  destruct b0, b1, b2, b3, b4, b5, b6, b7; intros H;
    try (vm_compute in H; discriminate H);
    repeat split; reflexivity.
Qed.

Lemma no_underscore (s : string) :
  string_forall (fun c => negb (Ascii.eqb "_" c)) s = true ->
  without_underscores s = Some s.
Proof.
  intros H. unfold without_underscores.
  replace (PyStr.contains "_" s) with false; [reflexivity|].
  symmetry. induction s as [|c s IH]; [reflexivity|].
  cbn [string_forall] in H. apply andb_true_iff in H. destruct H as [Hc Hs].
  cbn [PyStr.contains PyStr.startswith].
  apply negb_true_iff in Hc. rewrite Hc. simpl. now apply IH.
Qed.

Lemma rstrip_by_nothing (p : ascii -> bool) (s : string) :
  string_forall (fun c => negb (p c)) s = true -> PyStr.rstrip_by p s = s.
Proof.
  induction s as [|c s IH]; [reflexivity|].
  cbn [string_forall]. intros H. apply andb_true_iff in H.
  destruct H as [Hc Hs]. apply negb_true_iff in Hc.
  cbn [PyStr.rstrip_by]. rewrite (IH Hs), Hc. now destruct s.
Qed.

Lemma lstrip_by_nothing (p : ascii -> bool) (s : string) :
  string_forall (fun c => negb (p c)) s = true -> PyStr.lstrip_by p s = s.
Proof.
  destruct s as [|c s]; [reflexivity|].
  cbn [string_forall]. intros H. apply andb_true_iff in H.
  destruct H as [Hc _]. apply negb_true_iff in Hc.
  cbn [PyStr.lstrip_by]. now rewrite Hc.
Qed.

Lemma string_forall_app (test : ascii -> bool) (a b : string) :
  string_forall test (a ++ b)%string
  = string_forall test a && string_forall test b.
Proof.
  induction a as [|c a IH]; [reflexivity|].
  simpl. now rewrite IH, andb_assoc.
Qed.

Lemma string_forall_weaken (f g : ascii -> bool) (s : string) :
  (forall c, f c = true -> g c = true) ->
  string_forall f s = true -> string_forall g s = true.
Proof.
  intros Hfg. induction s as [|c s IH]; [reflexivity|].
  cbn [string_forall]. intros H. apply andb_true_iff in H.
  destruct H as [Hc Hs]. now rewrite (Hfg c Hc), (IH Hs).
Qed.

Lemma span_digits_app (a r : string) :
  all_digits a = true ->
  match r with
  | EmptyString => True
  | String c _ => PyStr.is_dec_digit c = false
  end ->
  span_digits (a ++ r) = (a, r).
Proof.
  unfold all_digits. intros Ha Hr. induction a as [|c a IH].
  - destruct r as [|c r]; [reflexivity|]. simpl. now rewrite Hr.
  - cbn [string_forall] in Ha. apply andb_true_iff in Ha.
    destruct Ha as [Hc Ha]. simpl. now rewrite Hc, (IH Ha).
Qed.

Lemma remove_plus_digits (a : string) :
  all_digits a = true -> PyStr.remove_char "+" a = a.
Proof.
  unfold all_digits. induction a as [|c a IH]; [reflexivity|].
  cbn [string_forall]. intros H. apply andb_true_iff in H.
  destruct H as [Hc Ha]. cbn [PyStr.remove_char].
  destruct (digit_facts c Hc) as [_ [_ [_ [Hp _]]]].
  now rewrite Hp, (IH Ha).
Qed.

Lemma remove_char_app (ch : ascii) (a b : string) :
  PyStr.remove_char ch (a ++ b)
  = (PyStr.remove_char ch a ++ PyStr.remove_char ch b)%string.
Proof.
  induction a as [|c a IH]; [reflexivity|].
  simpl. destruct (Ascii.eqb c ch); simpl; now rewrite IH.
Qed.

Lemma append_empty (s : string) : (s ++ "")%string = s.
Proof. induction s as [|c s IH]; [reflexivity|]. simpl. now rewrite IH. Qed.

(** The shape of a token that starts with a digit and holds only digits and
    plus signs, on its way through [py_float]. *)
Lemma py_float_digit_led (c : ascii) (s : string) :
  PyStr.is_dec_digit c = true ->
  string_forall (fun x => PyStr.is_dec_digit x || Ascii.eqb x "+") s = true ->
  py_float (String c s)
  = match parse_decimal (String c s) with
    | Some q => Some (Finite q)
    | None => None
    end.
Proof.
  intros Hc Hs.
  assert (Hall : string_forall
                   (fun x => PyStr.is_dec_digit x || Ascii.eqb x "+")
                   (String c s) = true)
    by (cbn [string_forall]; now rewrite Hc, Hs).
  destruct (digit_facts c Hc) as [_ [_ [_ [Hp [Hm [Hl [Hi Hn]]]]]]].
  unfold py_float.
  rewrite no_underscore.
  2:{ revert Hall. apply string_forall_weaken. intros x Hx.
      apply orb_true_iff in Hx. destruct Hx as [Hx|Hx].
      - destruct (digit_facts x Hx) as [_ [_ [H _]]]. now rewrite H.
      - apply Ascii.eqb_eq in Hx. now subst. }
  rewrite lstrip_by_nothing, rstrip_by_nothing.
  2,3: revert Hall; apply string_forall_weaken; intros x Hx;
       apply orb_true_iff in Hx; destruct Hx as [Hx|Hx];
       [destruct (digit_facts x Hx) as [H _]; now rewrite H
       |apply Ascii.eqb_eq in Hx; now subst].
  cbn [split_sign]. rewrite Hm, Hp.
  destruct (parse_decimal (String c s)); [reflexivity|].
  unfold parse_inf_or_nan. cbn [PyFloat.lower]. rewrite Hl.
  cbn [String.eqb]. now rewrite Hi, Hn.
Qed.

(** X11: a plus sign inside a number is dropped by the second attempt: a token
    made of digits, a plus and digits, which [float] refuses, is read as
    the number written by the two runs of digits put together (stated for
    up to fifteen digits, which a float holds exactly). *)
Theorem inner_plus_is_dropped (a b : string) :
  all_digits a = true -> all_digits b = true ->
  a <> EmptyString -> b <> EmptyString ->
  String.length (a ++ b) <= 15 ->
  py_float (a ++ "+" ++ b) = None
  /\ parse_value (a ++ "+" ++ b)
     = Some (Finite (inject_Z (digits_value 0 (a ++ b)))).
Proof.
  intros Ha Hb Hna Hnb _.
  destruct a as [|c a]; [congruence|]. clear Hna.
  pose proof Ha as Ha'. unfold all_digits in Ha'. cbn [string_forall] in Ha'.
  apply andb_true_iff in Ha'. destruct Ha' as [Hc Hrest].
  assert (Hweak : forall s, all_digits s = true ->
            string_forall (fun x => PyStr.is_dec_digit x || Ascii.eqb x "+") s
            = true).
  { intros s. apply string_forall_weaken. intros x Hx. now rewrite Hx. }
  assert (H1 : py_float (String c a ++ "+" ++ b) = None).
  { change (String c a ++ "+" ++ b)%string
      with (String c (a ++ "+" ++ b))%string.
    rewrite py_float_digit_led; [|exact Hc|].
    2:{ rewrite string_forall_app, (Hweak a Hrest). cbn [andb].
        change ("+" ++ b)%string with (String "+" b). cbn [string_forall].
        rewrite (Hweak b Hb). reflexivity. }
    change (String c (a ++ "+" ++ b))%string
      with (String c a ++ String "+" b)%string.
    unfold parse_decimal. rewrite span_digits_app; [|exact Ha|reflexivity].
    cbn [append]. now rewrite append_empty. }
  split; [exact H1|].
  unfold parse_value. rewrite H1.
  rewrite remove_char_app, (remove_plus_digits _ Ha).
  change ("+" ++ b)%string with (String "+" b).
  cbn [PyStr.remove_char]. change (Ascii.eqb "+" "+") with true. cbn iota.
  rewrite (remove_plus_digits _ Hb).
  change (String c a ++ b)%string with (String c (a ++ b)).
  rewrite py_float_digit_led; [|exact Hc|].
  2:{ apply Hweak. unfold all_digits. rewrite string_forall_app.
      unfold all_digits in Hb. now rewrite Hrest, Hb. }
  unfold parse_decimal.
  rewrite <- (append_empty (String c (a ++ b))) at 1.
  rewrite span_digits_app; [|unfold all_digits in *; cbn [string_forall];
    rewrite Hc, string_forall_app, Hrest, Hb; reflexivity|exact I].
  cbn [append parse_exponent]. rewrite append_empty.
  unfold scale10. cbn [String.length Z.of_nat Z.sub Z.leb Z.compare Z.opp].
  change (10 ^ 0)%Z with 1%Z. now rewrite Z.mul_1_r.
Qed.

Lemma inner_plus_is_dropped_witness :
  all_digits "1" = true /\ all_digits "2" = true
  /\ "1" <> EmptyString /\ "2" <> EmptyString
  /\ String.length ("1" ++ "2") <= 15
  /\ py_float "1+2" = None
  /\ parse_value "1+2" = Some (Finite 12).
Proof.
  assert (H1 : all_digits "1" = true) by reflexivity.
  assert (H2 : all_digits "2" = true) by reflexivity.
  assert (H3 : "1" <> EmptyString) by discriminate.
  assert (H4 : "2" <> EmptyString) by discriminate.
  assert (H5 : String.length ("1" ++ "2") <= 15) by (simpl; lia).
  repeat (split; [assumption|]).
  exact (inner_plus_is_dropped "1" "2" H1 H2 H3 H4 H5).
Defined.

(** ** Quoted fields *)









